(** * kplcloud/request: a shallow embedding of request.go

    The package is a fluent HTTP request builder with a server-driven retry
    loop, a response classifier and a content-negotiated decoder.  This file
    embeds request.go function by function and proves the properties of the
    retry loop, of the classifier and of the builder's error latch.

    Conventions.
    - Go [int] and [time.Duration] are [Z]; no arithmetic of the package can
      leave the 64-bit range (the only counter stops at 10).
    - [[]byte] is [list byte]; a nil slice and an empty slice are both [[]].
    - A Go [map] is a [gmap]; a nil map field is [None].
    - A Go [error] is a value of the inductive [error]; [nil] is [None].
    - Functions of Go's standard library that the package only calls are
      fields of the class [GoStd]; every theorem holds for every instance. *)

From Stdlib Require Import ZArith Ascii List Bool Lia.
From Stdlib Require String.
From Stdlib Require Import Numbers.DecimalString.
From stdpp Require Import base option list gmap strings fin_maps.

Open Scope Z_scope.

(** ** Go values *)

Definition bytes := list Byte.byte.

(** [string(b)] and [[]byte(s)]: the same bytes. *)
Definition string_of_bytes (b : bytes) : string := String.string_of_list_byte b.
Definition bytes_of_string (s : string) : bytes := String.list_byte_of_string s.

(** The error values the package creates or inspects.  [lib_error] stands for
    any other error value returned by a library call. *)
Inductive error : Type :=
| StatusError (Message : string)          (* &StatusError{Message} *)
| Errorf_zero_length                      (* fmt.Errorf("0-length response") *)
| Errorf_unknown_body                     (* fmt.Errorf("unknown type used for body: %+v", obj) *)
| Errorf_stream_read (cause : error)      (* fmt.Errorf("Stream error %#v when reading ...") *)
| Errorf_unexpected_read (cause : error)  (* fmt.Errorf("Unexpected error %#v when reading ...") *)
| Errorf_while_accessing (code : Z) (httpUrl : string) (body : bytes)
                                          (* fmt.Errorf("%d while accessing %v: %s", ...) *)
| url_Error (Err : error)                 (* *url.Error *)
| net_OpError (Err : error)               (* *net.OpError *)
| os_SyscallError (Err : error)           (* *os.SyscallError *)
| syscall_Errno (errno : Z)               (* syscall.Errno *)
| http2_StreamError (code : Z)            (* http2.StreamError *)
| lib_error (msg : string).

(** syscall.ECONNRESET (0x68 on linux). *)
Definition ECONNRESET : Z := 104.

(** fmt's [%d]. *)
Definition itoa (n : Z) : string := NilZero.string_of_int (Z.to_int n).

(** *** strings *)

Fixpoint strings_HasPrefix (s prefix : string) {struct prefix} : bool :=
  match prefix, s with
  | EmptyString, _ => true
  | String _ _, EmptyString => false
  | String a p', String b s' => if Ascii.eqb a b then strings_HasPrefix s' p' else false
  end.

(** strings.Index: the position of the first occurrence, or -1. *)
Fixpoint strings_Index (s substr : string) : Z :=
  if strings_HasPrefix s substr then 0
  else match s with
       | EmptyString => -1
       | String _ s' =>
           let i := strings_Index s' substr in
           if i <? 0 then -1 else 1 + i
       end.

Fixpoint string_rev (s : string) : string :=
  match s with
  | EmptyString => EmptyString
  | String c s' => string_rev s' +:+ String c EmptyString
  end.

Definition strings_HasSuffix (s suffix : string) : bool :=
  strings_HasPrefix (string_rev s) (string_rev suffix).

(** *** strconv.Atoi: an optional sign and decimal digits, within int range. *)

Definition digit_of (c : ascii) : option Z :=
  let n := Z.of_N (N_of_ascii c) in
  if (48 <=? n) && (n <=? 57) then Some (n - 48) else None.

Fixpoint parse_digits (acc : Z) (s : string) : option Z :=
  match s with
  | EmptyString => Some acc
  | String c s' =>
      match digit_of c with
      | Some d => parse_digits (10 * acc + d) s'
      | None => None
      end
  end.

Definition maxInt : Z := 2 ^ 63 - 1.
Definition minInt : Z := - 2 ^ 63.

Definition strconv_Atoi (s : string) : option Z :=
  let '(neg, ds) :=
    match s with
    | String "+" t => (false, t)
    | String "-" t => (true, t)
    | _ => (false, s)
    end in
  match ds with
  | EmptyString => None
  | _ =>
      match parse_digits 0 ds with
      | Some n =>
          let v := if neg then - n else n in
          if (minInt <=? v) && (v <=? maxInt) then Some v else None
      | None => None
      end
  end.

(** ** net/http, net/url and io values *)

(** url.URL: the fields the package reads or writes. *)
Module url_URL.
Record t := mk {
  Scheme : string;
  Host : string;
  Path : string;
  RawQuery : string;
  Fragment : string
}.
Definition empty : t := mk "" "" "" "" "".
Definition with_Path (u : t) (p : string) : t :=
  mk (Scheme u) (Host u) p (RawQuery u) (Fragment u).
Definition with_RawQuery (u : t) (q : string) : t :=
  mk (Scheme u) (Host u) (Path u) q (Fragment u).
End url_URL.

(** http.Cookie, as returned by [Response.Cookies]. *)
Record http_Cookie := { Cookie_Name : string; Cookie_Value : string }.

(** context.Context: only its identity matters to the package. *)
Definition context_Context := nat.

(** The client built by [NewRequest]: a dialer and a TLS configuration. *)
Record net_Dialer := { Dialer_Timeout : Z; Dialer_KeepAlive : Z }.
Record tls_Config := { InsecureSkipVerify : bool }.
Record http_Transport := { DialContext : net_Dialer; TLSClientConfig : tls_Config }.
Record http_Client := { Transport : option http_Transport }.

(** http.DefaultClient: a client with no transport of its own. *)
Definition http_DefaultClient : http_Client := {| Transport := None |}.

Definition time_Second : Z := 1000000000.

(** An [io.Reader] used as a request body: its bytes, the read position, and
    what [Seek] does when the dynamic type has that method. *)
Inductive Seeking :=
| NotSeeker                   (* the type assertion to io.Seeker fails *)
| SeekSucceeds                (* Seek(0, 0) rewinds *)
| SeekFails (e : error).      (* Seek(0, 0) returns an error *)

Record Reader := { rd_data : bytes; rd_pos : nat; rd_seek : Seeking }.

(** bytes.NewReader *)
Definition bytes_NewReader (data : bytes) : Reader :=
  {| rd_data := data; rd_pos := 0; rd_seek := SeekSucceeds |}.

Definition reader_rest (rd : Reader) : bytes := drop (rd_pos rd) (rd_data rd).
Definition reader_drain (rd : Reader) : Reader :=
  {| rd_data := rd_data rd; rd_pos := length (rd_data rd); rd_seek := rd_seek rd |}.
Definition reader_rewind (rd : Reader) : Reader :=
  {| rd_data := rd_data rd; rd_pos := 0; rd_seek := rd_seek rd |}.

(** A response body: the bytes still to be read and how the stream ends
    ([None] is io.EOF). *)
Record ReadCloser := { rc_data : bytes; rc_end : option error }.

(** ioutil.ReadAll *)
Definition ioutil_ReadAll (rc : ReadCloser) : bytes * option error * ReadCloser :=
  (rc_data rc, rc_end rc, {| rc_data := []; rc_end := rc_end rc |}).

(** ioutil.ReadAll(&io.LimitedReader{R: rc, N: n}) *)
Definition ioutil_ReadAll_limited (n : nat) (rc : ReadCloser) : bytes * option error :=
  if (n <=? length (rc_data rc))%nat then (take n (rc_data rc), None)
  else (rc_data rc, rc_end rc).

Module Response.
Record t := mk {
  StatusCode : Z;
  Header : gmap string (list string);
  Body : option ReadCloser;
  ContentLength : Z
}.
End Response.

(** The request handed to the transport. [Body] is what the transport can
    read from the body reader when the request is sent. *)
Module http_Request.
Record t := mk {
  Method : string;
  URL : string;
  Body : option bytes;
  Header : option (gmap string (list string));
  Ctx : option context_Context
}.
End http_Request.

(** [client.Do]: the answer of the network to the [n]-th request (counted
    from 0) that one execution sends through a client. *)
Definition Network := http_Client -> nat -> http_Request.t -> error + Response.t.

(** http.Header and url.Values: maps from a name to its list of values. *)
Abbreviation Values := (gmap string (list string)).

(** url.Values.Add and url.Values.Set *)
Definition Values_Add (v : Values) (key value : string) : Values :=
  <[key := default [] (v !! key) ++ [value]]> v.
Definition Values_Set (v : Values) (key value : string) : Values :=
  <[key := [value]]> v.

(** ** The standard library the package calls *)

Class GoStd := {
  (** the type of the value [Into] decodes into *)
  Target : Type;
  strings_ToUpper : string -> string;
  strings_TrimSpace : string -> string;
  textproto_CanonicalMIMEHeaderKey : string -> string;
  url_Parse : string -> error + url_URL.t;
  URL_String : url_URL.t -> string;
  URL_Query : url_URL.t -> Values;
  Values_Encode : Values -> string;
  path_Join : list string -> string;
  (** the media type of mime.ParseMediaType, or its error *)
  mime_ParseMediaType : string -> error + string;
  Duration_String : Z -> string;
  ioutil_ReadFile : string -> error + bytes;
  (** the error of http.NewRequest for a method and a URL, if any *)
  http_NewRequest_error : string -> string -> option error;
  (** Response.Cookies: the Set-Cookie headers parsed *)
  readSetCookies : Values -> list http_Cookie;
  (** the target after the call, and the error *)
  json_Unmarshal : bytes -> Target -> Target * option error;
  yaml_Unmarshal : bytes -> Target -> Target * option error;
  xml_Unmarshal : bytes -> Target -> Target * option error;
  (** the two header names the package reads are in canonical form *)
  canonical_Content_Type :
    textproto_CanonicalMIMEHeaderKey "Content-Type" = "Content-Type";
  canonical_Retry_After :
    textproto_CanonicalMIMEHeaderKey "Retry-After" = "Retry-After";
  (** mime.ParseMediaType rejects the empty string *)
  ParseMediaType_empty :
    mime_ParseMediaType "" = inl (lib_error "mime: no media type")
}.

(** http.Header.Get, Del and Add: the key is canonicalized first. *)
Definition Header_Get `{GoStd} (h : Values) (key : string) : string :=
  match h !! textproto_CanonicalMIMEHeaderKey key with
  | Some (v :: _) => v
  | _ => ""
  end.
Definition Header_Del `{GoStd} (h : Values) (key : string) : Values :=
  delete (textproto_CanonicalMIMEHeaderKey key) h.
Definition Header_Add `{GoStd} (h : Values) (key value : string) : Values :=
  Values_Add h (textproto_CanonicalMIMEHeaderKey key) value.

(** ** type Decoder interface, type Request struct, type Result struct *)

(** What [Decode] returns: whether [out] is the [into] it was given (it is nil
    otherwise), the error, and the target as the call left it. *)
Record Decoded `{GoStd} := { out_is_into : bool; dec_err : option error; dec_target : Target }.

Record Decoder `{GoStd} := { Decode : bytes -> string -> Target -> Decoded }.

Module Request.
Record t := mk {
  client : option http_Client;
  verb : string;
  baseURL : option url_URL.t;
  method : string;
  pathPrefix : string;
  subpath : string;
  params : option Values;
  headers : option Values;
  timeout : Z;
  err : option error;
  body : option Reader;
  ctx : option context_Context
}.
Definition with_client (r : t) (c : option http_Client) : t :=
  mk c (verb r) (baseURL r) (method r) (pathPrefix r) (subpath r) (params r)
     (headers r) (timeout r) (err r) (body r) (ctx r).
Definition with_pathPrefix (r : t) (p : string) : t :=
  mk (client r) (verb r) (baseURL r) (method r) p (subpath r) (params r)
     (headers r) (timeout r) (err r) (body r) (ctx r).
Definition with_subpath (r : t) (p : string) : t :=
  mk (client r) (verb r) (baseURL r) (method r) (pathPrefix r) p (params r)
     (headers r) (timeout r) (err r) (body r) (ctx r).
Definition with_params (r : t) (p : option Values) : t :=
  mk (client r) (verb r) (baseURL r) (method r) (pathPrefix r) (subpath r) p
     (headers r) (timeout r) (err r) (body r) (ctx r).
Definition with_headers (r : t) (h : option Values) : t :=
  mk (client r) (verb r) (baseURL r) (method r) (pathPrefix r) (subpath r) (params r)
     h (timeout r) (err r) (body r) (ctx r).
Definition with_timeout (r : t) (d : Z) : t :=
  mk (client r) (verb r) (baseURL r) (method r) (pathPrefix r) (subpath r) (params r)
     (headers r) d (err r) (body r) (ctx r).
Definition with_err (r : t) (e : option error) : t :=
  mk (client r) (verb r) (baseURL r) (method r) (pathPrefix r) (subpath r) (params r)
     (headers r) (timeout r) e (body r) (ctx r).
Definition with_body (r : t) (b : option Reader) : t :=
  mk (client r) (verb r) (baseURL r) (method r) (pathPrefix r) (subpath r) (params r)
     (headers r) (timeout r) (err r) b (ctx r).
Definition with_ctx (r : t) (c : option context_Context) : t :=
  mk (client r) (verb r) (baseURL r) (method r) (pathPrefix r) (subpath r) (params r)
     (headers r) (timeout r) (err r) (body r) c.
End Request.

Module Result.
Record t `{GoStd} := mk {
  body : bytes;
  contentType : string;
  err : option error;
  statusCode : Z;
  headers : Values;
  cookies : list http_Cookie;
  decoder : option Decoder
}.
(** Result{}: the zero value *)
Definition zero `{GoStd} : t :=
  {| body := []; contentType := ""; err := None; statusCode := 0;
     headers := ∅; cookies := []; decoder := None |}.
(** Result{err: e} *)
Definition of_err `{GoStd} (e : error) : t :=
  {| body := []; contentType := ""; err := Some e; statusCode := 0;
     headers := ∅; cookies := []; decoder := None |}.
End Result.

(** ** The state of an execution *)

(** What one execution changes outside the [Request]: the requests sent so
    far, the state of the body reader that [r.body] points to, and the state
    the completion callback writes to. *)
Record World (St : Type) := {
  w_sent : list http_Request.t;
  w_body : option Reader;
  w_cb : St
}.
Arguments w_sent {St} _.
Arguments w_body {St} _.
Arguments w_cb {St} _.

(** What one iteration of the [for] loop of [request] ends in: a [return],
    or the next iteration. *)
Inductive Step (St : Type) :=
| step_return (e : option error) (w : World St)
| step_again (retries : Z) (w : World St).
Arguments step_return {St} _ _.
Arguments step_again {St} _ _.

Section Package.
Context `{Std : GoStd}.

(** ** Result's methods *)

(** func (r Result) Raw() ([]byte, error) *)
Definition Raw (r : Result.t) : bytes * option error :=
  (Result.body r, Result.err r).

(** func (r Result) Error() error *)
Definition Error (r : Result.t) : option error :=
  if bool_decide (Result.err r = None) || (Z.of_nat (length (Result.body r)) =? 0)
  then Result.err r
  else Result.err r.

(** What a call of [Into] does: it returns an error (or nil) and leaves the
    target in some state, or it panics (a method call on a nil [Decoder]). *)
Inductive IntoReturn :=
| into_return (e : option error) (obj : Target)
| into_panic.

(** In [Into], [out] is nil or the address of [Into]'s own parameter, of type
    *interface{}: as an interface value it never equals [obj] when the decoder
    returned no error. *)
Definition out_equals_obj (d : Decoded) : bool := false.

(** func (r Result) Into(obj interface{}) error *)
Definition Into (r : Result.t) (obj : Target) : IntoReturn :=
  match Result.err r with
  | Some _ => into_return (Error r) obj
  | None =>
      if Z.of_nat (length (Result.body r)) =? 0 then
        into_return (Some Errorf_zero_length) obj
      else
        match mime_ParseMediaType (Result.contentType r) with
        | inl e => into_return (Some e) obj
        | inr mediaType =>
            match Result.decoder r with
            | None => into_panic
            | Some dec =>
                let d := Decode dec (Result.body r) mediaType obj in
                if bool_decide (dec_err d <> None) || out_equals_obj d
                then into_return (dec_err d) (dec_target d)
                else into_return None (dec_target d)
            end
        end
  end.

(** func (r Result) WasCreated(wasCreated *bool) Result: the value stored. *)
Definition WasCreated (r : Result.t) : bool := Result.statusCode r =? 201.

(** func (r Result) HttpStatusCode() int, Headers(), Cookies() *)
Definition HttpStatusCode (r : Result.t) : Z := Result.statusCode r.
Definition Headers (r : Result.t) : Values := Result.headers r.
Definition Cookies (r : Result.t) : list http_Cookie := Result.cookies r.

(** ** The decoder *)

(** func (c *decode) Decode(data []byte, mediaType string, into interface{}) *)
Definition decode_Decode (data : bytes) (mediaType : string) (into : Target) : Decoded :=
  let unmarshalled (r : Target * option error) :=
    match r with
    | (t, Some e) => {| out_is_into := false; dec_err := Some e; dec_target := t |}
    | (t, None) => {| out_is_into := true; dec_err := None; dec_target := t |}
    end in
  if String.eqb mediaType "application/json" then
    unmarshalled (json_Unmarshal data into)
  else if String.eqb mediaType "application/yaml" then
    unmarshalled (yaml_Unmarshal data into)
  else if String.eqb mediaType "application/xml" || String.eqb mediaType "text/xml" then
    unmarshalled (xml_Unmarshal data into)
  else {| out_is_into := true; dec_err := None; dec_target := into |}.

(** func NewDecode() Decoder *)
Definition NewDecode : Decoder := {| Decode := decode_Decode |}.

(** ** Classification of a response *)

(** func NewGenericServerResponse(code int, serverMessage string) *StatusError *)
Definition NewGenericServerResponse (code : Z) (serverMessage : string) : error :=
  let message :=
    "the server responded with the status code " +:+ itoa code +:+
    " but did not return more information" in
  StatusError
    match code with
    | 409 => "the server reported a conflict"
    | 404 => "the server could not find the requested resource"
    | 400 => "the server rejected our request for an unknown reason"
    | 401 => "the server has asked for the client to provide credentials"
    | 403 => serverMessage
    | 406 => serverMessage
    | 415 => serverMessage
    | 405 => "the server does not allow this method on the requested resource"
    | 422 => "the server rejected our request due to an error in our request"
    | 503 => "the server is currently unable to handle the request"
    | 504 => "the server was unable to return a response in the time allotted, but may still be processing the request"
    | 429 => "the server has received too many requests and has asked us to try again later"
    | _ =>
        if 500 <=? code then
          "an error on the server (" +:+ itoa code +:+
          ") has prevented the request from succeeding"
        else message
    end.

(** func retryAfterSeconds(resp *http.Response) (int, bool) *)
Definition retryAfterSeconds (resp : Response.t) : Z * bool :=
  let h := Header_Get (Response.Header resp) "Retry-After" in
  if 0 <? Z.of_nat (String.length h) then
    match strconv_Atoi h with
    | Some i => (i, true)
    | None => (0, false)
    end
  else (0, false).

(** func checkWait(resp *http.Response) (int, bool) *)
Definition checkWait (resp : Response.t) : Z * bool :=
  let r := Response.StatusCode resp in
  if (r =? 429) || (500 <=? r) then retryAfterSeconds resp
  else (0, false).

(** func IsConnectionReset(err error) bool *)
Definition IsConnectionReset (err : error) : bool :=
  let err := match err with url_Error e => e | _ => err end in
  let err := match err with net_OpError e => e | _ => err end in
  let err := match err with os_SyscallError e => e | _ => err end in
  match err with
  | syscall_Errno errno => errno =? ECONNRESET
  | _ => false
  end.

(** func isTextResponse(resp *http.Response) bool *)
Definition isTextResponse (resp : Response.t) : bool :=
  let contentType := Header_Get (Response.Header resp) "Content-Type" in
  if Z.of_nat (String.length contentType) =? 0 then true
  else match mime_ParseMediaType contentType with
       | inl _ => false
       | inr media => strings_HasPrefix media "text/"
       end.

Definition maxUnstructuredResponseTextBytes : Z := 2048.

(** func (r *Request) newUnstructuredResponseError(body, isTextResponse,
    statusCode, method, retryAfter) error *)
Definition newUnstructuredResponseError (r : Request.t) (body : bytes)
    (isTextResponse : bool) (statusCode : Z) (method : string) (retryAfter : Z) : error :=
  let body :=
    if maxUnstructuredResponseTextBytes <? Z.of_nat (length body)
    then take (Z.to_nat maxUnstructuredResponseTextBytes) body
    else body in
  let message :=
    if isTextResponse then strings_TrimSpace (string_of_bytes body) else "unknown" in
  NewGenericServerResponse statusCode message.

(** func (r *Request) transformUnstructuredResponseError(resp, req, body) error.
    [body] is [None] for a nil slice. *)
Definition transformUnstructuredResponseError (r : Request.t) (resp : Response.t)
    (req : http_Request.t) (body : option bytes) : error :=
  let body :=
    match body, Response.Body resp with
    | None, Some rc =>
        match ioutil_ReadAll_limited (Z.to_nat maxUnstructuredResponseTextBytes) rc with
        | (data, None) => Some data
        | (_, Some _) => body
        end
    | _, _ => body
    end in
  let retryAfter := fst (retryAfterSeconds resp) in
  newUnstructuredResponseError r (default [] body) (isTextResponse resp)
    (Response.StatusCode resp) (http_Request.Method req) retryAfter.

Definition with_Body (resp : Response.t) (b : option ReadCloser) : Response.t :=
  Response.mk (Response.StatusCode resp) (Response.Header resp) b
    (Response.ContentLength resp).

(** func (r *Request) transformResponse(resp *http.Response, req *http.Request) Result *)
Definition transformResponse (r : Request.t) (resp : Response.t)
    (req : http_Request.t) : Result.t :=
  let read : error + (option bytes * Response.t) :=
    match Response.Body resp with
    | Some rc =>
        match ioutil_ReadAll rc with
        | (data, None, rc') => inr (Some data, with_Body resp (Some rc'))
        | (_, Some (http2_StreamError c), _) =>
            inl (Errorf_stream_read (http2_StreamError c))
        | (_, Some e, _) => inl (Errorf_unexpected_read e)
        end
    | None => inr (None, resp)
    end in
  match read with
  | inl e => Result.of_err e
  | inr (body, resp) =>
      let contentType := Header_Get (Response.Header resp) "Content-Type" in
      let decoder := NewDecode in
      let code := Response.StatusCode resp in
      let success :=
        {| Result.body := default [] body;
           Result.contentType := contentType;
           Result.statusCode := code;
           Result.decoder := Some decoder;
           Result.err := None;
           Result.headers := Response.Header resp;
           Result.cookies := readSetCookies (Response.Header resp) |} in
      if code =? 101 then success
      else if (code <? 200) || (206 <? code) then
        {| Result.body := default [] body;
           Result.contentType := contentType;
           Result.statusCode := code;
           Result.decoder := Some decoder;
           Result.err := Some (transformUnstructuredResponseError r resp req body);
           Result.headers := Response.Header resp;
           Result.cookies := readSetCookies (Response.Header resp) |}
      else success
  end.


(** The body was read to its end without an error. *)
Definition body_read (resp : Response.t) (data : bytes) : Prop :=
  match Response.Body resp with
  | Some rc => rc_end rc = None /\ rc_data rc = data
  | None => data = []
  end.

(** [r] with another decoder (or none). *)
Definition with_decoder (r : Result.t) (d : option Decoder) : Result.t :=
  {| Result.body := Result.body r;
     Result.contentType := Result.contentType r;
     Result.err := Result.err r;
     Result.statusCode := Result.statusCode r;
     Result.headers := Result.headers r;
     Result.cookies := Result.cookies r;
     Result.decoder := d |}.

(** A decoder that reports success and leaves the target alone. *)
Definition idle_decoder : Decoder :=
  {| Decode := fun _ _ into =>
       {| out_is_into := true; dec_err := None; dec_target := into |} |}.

(** The media types [Decode] has a case for. *)
Definition supported_media_types : list string :=
  ["application/json"; "application/yaml"; "application/xml"; "text/xml"].

(** ** The builder *)

(** func NewRequest(baseUrl, verb string) *Request *)
Definition NewRequest (baseUrl verb : string) : Request.t :=
  let dialer :=
    {| Dialer_Timeout := 30 * time_Second; Dialer_KeepAlive := 30 * time_Second |} in
  let isHttps := negb (strings_Index baseUrl "https" =? -1) in
  let reparse :=
    let scheme := if isHttps then "https://" else "http://" in
    match url_Parse (scheme +:+ baseUrl) with
    | inr u => Some u
    | inl _ => None
    end in
  let hostURL :=
    match url_Parse baseUrl with
    | inl _ => reparse
    | inr u =>
        if String.eqb (url_URL.Scheme u) "" || String.eqb (url_URL.Host u) ""
        then reparse else Some u
    end in
  let pathPrefix :=
    match hostURL with
    | Some u => path_Join ["/"; url_URL.Path u]
    | None => "/"
    end in
  {| Request.headers := None;
     Request.baseURL := hostURL;
     Request.client :=
       Some {| Transport :=
                 Some {| DialContext := dialer;
                         TLSClientConfig := {| InsecureSkipVerify := isHttps |} |} |};
     Request.verb := strings_ToUpper verb;
     Request.pathPrefix := pathPrefix;
     Request.method := "";
     Request.subpath := "";
     Request.params := None;
     Request.timeout := 0;
     Request.err := None;
     Request.body := None;
     Request.ctx := None |}.

(** func (r *Request) HttpClient(client *http.Client) *Request *)
Definition HttpClient (r : Request.t) (client : option http_Client) : Request.t :=
  Request.with_client r client.

(** func (r *Request) Header(key string, values ...string) *Request *)
Definition Header (r : Request.t) (key : string) (values : list string) : Request.t :=
  let headers := default ∅ (Request.headers r) in
  let headers := Header_Del headers key in
  let headers := foldl (fun h value => Header_Add h key value) headers values in
  Request.with_headers r (Some headers).

(** func (r *Request) Timeout(d time.Duration) *Request *)
Definition Timeout (r : Request.t) (d : Z) : Request.t :=
  match Request.err r with
  | Some _ => r
  | None => Request.with_timeout r d
  end.

(** func (r *Request) Context(ctx context.Context) *Request *)
Definition Context (r : Request.t) (ctx : option context_Context) : Request.t :=
  Request.with_ctx r ctx.

(** func (r *Request) Prefix(segments ...string) *Request *)
Definition Prefix (r : Request.t) (segments : list string) : Request.t :=
  match Request.err r with
  | Some _ => r
  | None =>
      Request.with_pathPrefix r (path_Join [Request.pathPrefix r; path_Join segments])
  end.

(** func (r *Request) Suffix(segments ...string) *Request *)
Definition Suffix (r : Request.t) (segments : list string) : Request.t :=
  match Request.err r with
  | Some _ => r
  | None =>
      Request.with_subpath r (path_Join [Request.subpath r; path_Join segments])
  end.

(** func (r *Request) AbsPath(segments ...string) *Request.
    [None] is the panic of reading [r.baseURL.Path] through a nil [baseURL]. *)
Definition AbsPath (r : Request.t) (segments : list string) : option Request.t :=
  match Request.err r with
  | Some _ => Some r
  | None =>
      match Request.baseURL r with
      | None => None
      | Some base =>
          let pathPrefix := path_Join [url_URL.Path base; path_Join segments] in
          Some (Request.with_pathPrefix r
            match segments with
            | [segment] =>
                if ((1 <? Z.of_nat (String.length (url_URL.Path base)))
                    || (1 <? Z.of_nat (String.length segment)))
                   && strings_HasSuffix segment "/"
                then pathPrefix +:+ "/" else pathPrefix
            | _ => pathPrefix
            end)
      end
  end.

(** func (r *Request) RequestURI(uri string) *Request *)
Definition RequestURI (r : Request.t) (uri : string) : Request.t :=
  match Request.err r with
  | Some _ => r
  | None =>
      match url_Parse uri with
      | inl e => Request.with_err r (Some e)
      | inr locator =>
          let r := Request.with_pathPrefix r (url_URL.Path locator) in
          if 0 <? Z.of_nat (size (URL_Query locator)) then
            Request.with_params r
              (Some (map_fold (fun k v (m : Values) => <[k := v]> m)
                       (default ∅ (Request.params r)) (URL_Query locator)))
          else r
      end
  end.

(** func (r *Request) setParam(paramName, value string) *Request *)
Definition setParam (r : Request.t) (paramName value : string) : Request.t :=
  let params := default ∅ (Request.params r) in
  Request.with_params r
    (Some (<[paramName := default [] (params !! paramName) ++ [value]]> params)).

(** func (r *Request) Param(paramName, s string) *Request *)
Definition Param (r : Request.t) (paramName s : string) : Request.t :=
  match Request.err r with
  | Some _ => r
  | None => setParam r paramName s
  end.

(** The dynamic type of the argument of [Body]. *)
Inductive BodyArg :=
| body_string (path : string)
| body_bytes (data : bytes)
| body_Reader (rd : Reader)
| body_other.

(** func (r *Request) Body(obj interface{}) *Request *)
Definition Body (r : Request.t) (obj : BodyArg) : Request.t :=
  match Request.err r with
  | Some _ => r
  | None =>
      match obj with
      | body_string t =>
          match ioutil_ReadFile t with
          | inl e => Request.with_err r (Some e)
          | inr data => Request.with_body r (Some (bytes_NewReader data))
          end
      | body_bytes t => Request.with_body r (Some (bytes_NewReader t))
      | body_Reader t => Request.with_body r (Some t)
      | body_other => Request.with_err r (Some Errorf_unknown_body)
      end
  end.

(** The [query] that [URL] hands to [Encode]. *)
Definition URL_query (r : Request.t) : Values :=
  let query : Values :=
    map_fold (fun key values (q : Values) =>
                foldl (fun q value => Values_Add q key value) q values)
             ∅ (default ∅ (Request.params r)) in
  if Request.timeout r =? 0 then query
  else Values_Set query "timeout" (Duration_String (Request.timeout r)).

(** func (r *Request) URL() *url.URL *)
Definition URL (r : Request.t) : url_URL.t :=
  let p := Request.pathPrefix r in
  let finalURL := default url_URL.empty (Request.baseURL r) in
  let finalURL := url_URL.with_Path finalURL p in
  url_URL.with_RawQuery finalURL (Values_Encode (URL_query r)).


(** ** Execution *)

Definition deliver {St} (fn : http_Request.t -> Response.t -> St -> St)
    (req : http_Request.t) (resp : Response.t) (w : World St) : World St :=
  {| w_sent := w_sent w; w_body := w_body w; w_cb := fn req resp (w_cb w) |}.

(** http.NewRequest(verb, httpUrl, body) with the context and the headers of
    [r]: an empty method means GET. *)
Definition build_request (r : Request.t) (httpUrl : string) (body : option bytes)
    : http_Request.t :=
  {| http_Request.Method :=
       if String.eqb (Request.verb r) "" then "GET" else Request.verb r;
     http_Request.URL := httpUrl;
     http_Request.Body := body;
     http_Request.Header := Request.headers r;
     http_Request.Ctx := Request.ctx r |}.

(** The response [request] makes up for a connection reset. *)
Definition reset_placeholder : Response.t :=
  {| Response.StatusCode := 500;
     Response.Header := {[ "Retry-After" := ["1"] ]};
     Response.Body := Some {| rc_data := []; rc_end := None |};
     Response.ContentLength := 0 |}.

(** What the answer of [client.Do] becomes before the closure [done] looks
    at it: an error stays an error unless it is a connection reset of a GET,
    which becomes the placeholder response. *)
Definition screened (r : Request.t) (answer : error + Response.t)
    : error + Response.t :=
  match answer with
  | inl e =>
      if negb (IsConnectionReset e) || negb (String.eqb (Request.verb r) "GET")
      then inl e else inr reset_placeholder
  | inr resp => inr resp
  end.

Definition maxRetries : Z := 10.

(** The world after [req] was sent: the transport has read the body to its
    end. *)
Definition after_send {St} (req : http_Request.t) (w : World St) : World St :=
  {| w_sent := w_sent w ++ [req];
     w_body := reader_drain <$> w_body w;
     w_cb := w_cb w |}.

(** The body of the [for] loop of [request]: it builds the request, sends
    it, and runs the closure [done].  Draining and closing the response body
    when [done] returns changes nothing that the package observes. *)
Definition iteration {St} (net : Network) (r : Request.t) (client : http_Client)
    (fn : http_Request.t -> Response.t -> St -> St)
    (retries : Z) (w : World St) : Step St :=
  let httpUrl := URL_String (URL r) in
  match http_NewRequest_error (Request.verb r) httpUrl with
  | Some e => step_return (Some e) w
  | None =>
      let req := build_request r httpUrl (reader_rest <$> w_body w) in
      let sent := after_send req w in
      match screened r (net client (length (w_sent w)) req) with
      | inl e => step_return (Some e) sent
      | inr resp =>
          let retries := retries + 1 in
          if snd (checkWait resp) && (retries <? maxRetries) then
            match w_body sent with
            | Some rd =>
                match rd_seek rd with
                | SeekSucceeds =>
                    step_again retries
                      {| w_sent := w_sent sent;
                         w_body := Some (reader_rewind rd);
                         w_cb := w_cb sent |}
                | SeekFails _ => step_return None (deliver fn req resp sent)
                | NotSeeker => step_again retries sent
                end
            | None => step_again retries sent
            end
          else step_return None (deliver fn req resp sent)
      end
  end.

(** The [for] loop.  [fuel] bounds the iterations; [request] passes enough
    of it (lemma [request_loop_total]). *)
Fixpoint request_loop {St} (fuel : nat) (net : Network) (r : Request.t)
    (client : http_Client) (fn : http_Request.t -> Response.t -> St -> St)
    (retries : Z) (w : World St) : option (option error * World St) :=
  match fuel with
  | O => None
  | S fuel =>
      match iteration net r client fn retries w with
      | step_return e w => Some (e, w)
      | step_again retries w => request_loop fuel net r client fn retries w
      end
  end.

(** func (r *Request) request(fn) error, where fn receives the final
    request and response *)
Definition request {St} (net : Network) (r : Request.t)
    (fn : http_Request.t -> Response.t -> St -> St) (w : World St)
    : option (option error * World St) :=
  match Request.err r with
  | Some e => Some (Some e, w)
  | None =>
      let client := default http_DefaultClient (Request.client r) in
      request_loop (Z.to_nat maxRetries) net r client fn 0 w
  end.

(** The world an execution of [r] starts in. *)
Definition start {St} (r : Request.t) (s : St) : World St :=
  {| w_sent := []; w_body := Request.body r; w_cb := s |}.

(** The completion callback of [Do]: it stores the classified response in
    the variable [result]. *)
Definition classify (r : Request.t) (req : http_Request.t) (resp : Response.t)
    (result : Result.t) : Result.t :=
  transformResponse r resp req.

(** func (r *Request) Do() Result *)
Definition Do (net : Network) (r : Request.t) : option (Result.t * World Result.t) :=
  match request net r (classify r) (start r Result.zero) with
  | Some (Some e, w) => Some (Result.of_err e, w)
  | Some (None, w) => Some (w_cb w, w)
  | None => None
  end.

(** func (r *Request) Stream() (io.ReadCloser, error): what is returned, and
    the requests sent. *)
Definition Stream (net : Network) (r : Request.t)
    : (option ReadCloser * option error) * list http_Request.t :=
  match Request.err r with
  | Some e => ((None, Some e), [])
  | None =>
      let httpUrl := URL_String (URL r) in
      match http_NewRequest_error (Request.verb r) httpUrl with
      | Some e => ((None, Some e), [])
      | None =>
          let req := build_request r httpUrl None in
          let client := default http_DefaultClient (Request.client r) in
          match net client 0%nat req with
          | inl e => ((None, Some e), [req])
          | inr resp =>
              if (200 <=? Response.StatusCode resp) && (Response.StatusCode resp <? 300)
              then ((Response.Body resp, None), [req])
              else
                let result := transformResponse r resp req in
                match Error result with
                | Some e => ((None, Some e), [req])
                | None =>
                    ((None,
                      Some (Errorf_while_accessing (Result.statusCode result) httpUrl
                              (Result.body result))), [req])
                end
          end
      end
  end.

(** The values that [r.params] holds for a name. *)
Definition param_values (r : Request.t) (name : string) : list string :=
  default [] (default ∅ (Request.params r) !! name).

(** ** Sequences of configuration calls *)

(** A call of one of the configuration methods. *)
Inductive Call :=
| call_HttpClient (client : option http_Client)
| call_Header (key : string) (values : list string)
| call_Timeout (d : Z)
| call_Context (ctx : option context_Context)
| call_Prefix (segments : list string)
| call_Suffix (segments : list string)
| call_AbsPath (segments : list string)
| call_RequestURI (uri : string)
| call_Param (paramName s : string)
| call_Body (obj : BodyArg).

(** The request after the call, or [None] when the call panics. *)
Definition call (r : Request.t) (c : Call) : option Request.t :=
  match c with
  | call_HttpClient client => Some (HttpClient r client)
  | call_Header key values => Some (Header r key values)
  | call_Timeout d => Some (Timeout r d)
  | call_Context ctx => Some (Context r ctx)
  | call_Prefix segments => Some (Prefix r segments)
  | call_Suffix segments => Some (Suffix r segments)
  | call_AbsPath segments => AbsPath r segments
  | call_RequestURI uri => Some (RequestURI r uri)
  | call_Param paramName s => Some (Param r paramName s)
  | call_Body obj => Some (Body r obj)
  end.

(** A chain of calls, first to last. *)
Fixpoint calls (r : Request.t) (cs : list Call) : option Request.t :=
  match cs with
  | [] => Some r
  | c :: cs =>
      match call r c with
      | Some r' => calls r' cs
      | None => None
      end
  end.

(** The request that the next iteration of [request] sends from [w]. *)
Definition next_request {St} (r : Request.t) (w : World St) : http_Request.t :=
  build_request r (URL_String (URL r)) (reader_rest <$> w_body w).

(** The network [net], except that request number [n] is answered by [resp]. *)
Definition answering (net : Network) (n : nat) (resp : Response.t) : Network :=
  fun client m req => if (m =? n)%nat then inr resp else net client m req.

End Package.

(** ** A reference runtime

    A small instance of [GoStd] on which closed examples are evaluated.  It
    covers ASCII text, URLs of the form scheme://host/path?query, media types
    without parameters and durations of whole seconds; it has no files and
    parses no cookies, and its decoders store the document they are given. *)
Module Reference.

Definition code (c : ascii) : nat := nat_of_ascii c.

Definition to_upper (c : ascii) : ascii :=
  if ((97 <=? code c) && (code c <=? 122))%nat then ascii_of_nat (code c - 32) else c.
Definition to_lower (c : ascii) : ascii :=
  if ((65 <=? code c) && (code c <=? 90))%nat then ascii_of_nat (code c + 32) else c.
Definition is_letter (c : ascii) : bool :=
  (((97 <=? code c) && (code c <=? 122)) || ((65 <=? code c) && (code c <=? 90)))%nat.
Definition is_space (c : ascii) : bool :=
  (((9 <=? code c) && (code c <=? 13)) || (code c =? 32))%nat.

Fixpoint map_string (f : ascii -> ascii) (s : string) : string :=
  match s with
  | EmptyString => EmptyString
  | String c s' => String (f c) (map_string f s')
  end.

Fixpoint all_string (f : ascii -> bool) (s : string) : bool :=
  match s with
  | EmptyString => true
  | String c s' => f c && all_string f s'
  end.

Fixpoint trim_left (s : string) : string :=
  match s with
  | String c s' => if is_space c then trim_left s' else s
  | EmptyString => EmptyString
  end.

Definition trim_space (s : string) : string :=
  string_rev (trim_left (string_rev (trim_left s))).

(** [cut c s]: the text before the first [c], and the text after it. *)
Fixpoint cut (c : ascii) (s : string) : string * option string :=
  match s with
  | EmptyString => (EmptyString, None)
  | String a s' =>
      if Ascii.eqb a c then (EmptyString, Some s')
      else let '(before, after) := cut c s' in (String a before, after)
  end.

Fixpoint split_fuel (n : nat) (c : ascii) (s : string) : list string :=
  match n with
  | O => [s]
  | S n =>
      match cut c s with
      | (before, Some after) => before :: split_fuel n c after
      | (before, None) => [before]
      end
  end.
Definition split (c : ascii) (s : string) : list string :=
  split_fuel (String.length s) c s.

(** textproto.CanonicalMIMEHeaderKey on letters, digits and '-'. *)
Fixpoint canonical (upper : bool) (s : string) : string :=
  match s with
  | EmptyString => EmptyString
  | String c s' =>
      String (if upper then to_upper c else to_lower c)
             (canonical (Ascii.eqb c "-") s')
  end.

Definition parse_url (s : string) : error + url_URL.t :=
  let '(front, query) := cut "?" s in
  let i := strings_Index front "://" in
  if i <? 0 then
    inr (url_URL.mk "" "" front (default "" query) "")
  else
    let scheme := String.substring 0 (Z.to_nat i) front in
    let rest := String.substring (Z.to_nat i + 3) (String.length front) front in
    let '(host, path) := cut "/" rest in
    inr (url_URL.mk scheme host
           (match path with Some p => String "/" p | None => "" end)
           (default "" query) "").

Definition url_string (u : url_URL.t) : string :=
  (if String.eqb (url_URL.Scheme u) "" then ""
   else url_URL.Scheme u +:+ "://" +:+ url_URL.Host u)
  +:+ url_URL.Path u
  +:+ (if String.eqb (url_URL.RawQuery u) "" then "" else "?" +:+ url_URL.RawQuery u).

Definition parse_query (s : string) : Values :=
  foldl (fun (q : Values) pair =>
           if String.eqb pair "" then q
           else let '(k, v) := cut "=" pair in Values_Add q k (default "" v))
        ∅ (split "&" s).

Fixpoint insert_sorted (k : string * list string) (l : list (string * list string)) :=
  match l with
  | [] => [k]
  | x :: l' => if String.leb (fst k) (fst x) then k :: l else x :: insert_sorted k l'
  end.

Definition encode (q : Values) : string :=
  String.concat "&"
    (flat_map (fun '(k, vs) => map (fun v => k +:+ "=" +:+ v) vs)
       (foldr insert_sorted [] (map_to_list q))).

Fixpoint squeeze (after_slash : bool) (s : string) : string :=
  match s with
  | EmptyString => EmptyString
  | String c s' =>
      if Ascii.eqb c "/" then
        if after_slash then squeeze true s' else String c (squeeze true s')
      else String c (squeeze false s')
  end.

Definition join_path (elems : list string) : string :=
  let joined :=
    squeeze false
      (String.concat "/" (filter (fun e => negb (String.eqb e "")) elems)) in
  match string_rev joined with
  | String "/" (String c rest) => string_rev (String c rest)
  | _ => joined
  end.

Definition parse_media_type (v : string) : error + string :=
  let mediatype := trim_space (map_string to_lower (fst (cut ";" v))) in
  match cut "/" mediatype with
  | (EmptyString, _) => inl (lib_error "mime: no media type")
  | (_, None) => inr mediatype
  | (_, Some EmptyString) => inl (lib_error "mime: expected token after slash")
  | (_, Some _) => inr mediatype
  end.

Definition duration_string (d : Z) : string :=
  if d mod time_Second =? 0 then
    let s := d / time_Second in
    if s <? 60 then itoa s +:+ "s"
    else if s <? 3600 then itoa (s / 60) +:+ "m" +:+ itoa (s mod 60) +:+ "s"
    else itoa (s / 3600) +:+ "h" +:+ itoa (s / 60 mod 60) +:+ "m"
         +:+ itoa (s mod 60) +:+ "s"
  else itoa d +:+ "ns".

Definition new_request_error (method url : string) : option error :=
  if all_string is_letter method then None
  else Some (lib_error "net/http: invalid method").

#[export] Instance std : GoStd := {|
  Target := bytes;
  strings_ToUpper := map_string to_upper;
  strings_TrimSpace := trim_space;
  textproto_CanonicalMIMEHeaderKey := canonical true;
  url_Parse := parse_url;
  URL_String := url_string;
  URL_Query := fun u => parse_query (url_URL.RawQuery u);
  Values_Encode := encode;
  path_Join := join_path;
  mime_ParseMediaType := parse_media_type;
  Duration_String := duration_string;
  ioutil_ReadFile := fun _ => inl (lib_error "open: no such file or directory");
  http_NewRequest_error := new_request_error;
  readSetCookies := fun _ => [];
  json_Unmarshal := fun data _ => (data, None);
  yaml_Unmarshal := fun data _ => (data, None);
  xml_Unmarshal := fun data _ => (data, None);
  canonical_Content_Type := eq_refl;
  canonical_Retry_After := eq_refl;
  ParseMediaType_empty := eq_refl
|}.

End Reference.

(** * Properties *)

(** ** strings.HasPrefix and strings.Index *)

Lemma strings_HasPrefix_iff (s p : string) :
  strings_HasPrefix s p = true <-> exists t, s = p +:+ t.
Proof.
  revert s. induction p as [|a p IH]; intros s; simpl.
  - split; [intros _; by exists s | done].
  - destruct s as [|b s].
    + split; [done | intros [t Ht]; discriminate].
    + destruct (Ascii.eqb_spec a b) as [->|Hne].
      * rewrite IH. split; intros [t Ht]; exists t; [by rewrite Ht | by injection Ht].
      * split; [done | intros [t Ht]; injection Ht; intros; by subst].
Qed.

Lemma strings_Index_range (s sub : string) :
  strings_Index s sub = -1 \/ 0 <= strings_Index s sub.
Proof.
  induction s as [|c s IH]; simpl.
  - destruct (strings_HasPrefix _ _); lia.
  - destruct (strings_HasPrefix _ _); [lia|].
    destruct (Z.ltb_spec (strings_Index s sub) 0); lia.
Qed.

Lemma strings_Index_iff (s sub : string) :
  strings_Index s sub <> -1 <-> exists pre post, s = pre +:+ sub +:+ post.
Proof.
  induction s as [|c s IH].
  - simpl. destruct (strings_HasPrefix "" sub) eqn:Hp.
    + apply strings_HasPrefix_iff in Hp as [t Ht].
      split; [intros _; by exists "", t | done].
    + split; [done|]. intros (pre & post & Hs).
      destruct pre; [|discriminate]. simpl in Hs.
      assert (strings_HasPrefix "" sub = true) by (apply strings_HasPrefix_iff; eauto).
      congruence.
  - simpl. destruct (strings_HasPrefix (String c s) sub) eqn:Hp.
    + apply strings_HasPrefix_iff in Hp as [t Ht].
      split; [intros _; by exists "", t | done].
    + destruct (Z.ltb_spec (strings_Index s sub) 0) as [Hlt|Hge].
      * split; [done|]. intros (pre & post & Hs).
        destruct pre as [|a pre]; simpl in Hs.
        -- assert (strings_HasPrefix (String c s) sub = true)
             by (apply strings_HasPrefix_iff; eauto).
           congruence.
        -- injection Hs as -> Hs.
           assert (strings_Index s sub <> -1) by (apply IH; eauto).
           destruct (strings_Index_range s sub); lia.
      * split; [|lia]. intros _.
        destruct IH as [IH _]. destruct IH as (pre & post & ->); [lia|].
        by exists (String c pre), post.
Qed.

Section Properties.
Context `{Std : GoStd}.

(** ** The response classifier *)

Lemma NewGenericServerResponse_is_StatusError (code : Z) (msg : string) :
  exists m, NewGenericServerResponse code msg = StatusError m.
Proof. unfold NewGenericServerResponse. eauto. Qed.

Lemma isTextResponse_with_Body (resp : Response.t) (b : option ReadCloser) :
  isTextResponse (with_Body resp b) = isTextResponse resp.
Proof. reflexivity. Qed.

(** [transformResponse] on a response whose body can be read. *)
Lemma transformResponse_read (r : Request.t) (resp : Response.t)
    (req : http_Request.t) (data : bytes) :
  body_read resp data ->
  Result.body (transformResponse r resp req) = data
  /\ Result.statusCode (transformResponse r resp req) = Response.StatusCode resp
  /\ Result.contentType (transformResponse r resp req)
     = Header_Get (Response.Header resp) "Content-Type"
  /\ Result.decoder (transformResponse r resp req) = Some NewDecode
  /\ Result.err (transformResponse r resp req)
     = if Response.StatusCode resp =? 101 then None
       else if (Response.StatusCode resp <? 200) || (206 <? Response.StatusCode resp)
            then Some (newUnstructuredResponseError r data (isTextResponse resp)
                         (Response.StatusCode resp) (http_Request.Method req)
                         (fst (retryAfterSeconds resp)))
            else None.
Proof.
  unfold body_read, transformResponse. destruct resp as [code h b cl]; simpl.
  destruct b as [[d e]|]; simpl.
  - intros [-> ->]. simpl.
    destruct (code =? 101); [done|].
    destruct ((code <? 200) || (206 <? code)); done.
  - intros ->.
    destruct (code =? 101); [done|].
    destruct ((code <? 200) || (206 <? code)); done.
Qed.

(** [transformResponse] on a response whose body fails to read. *)
Lemma transformResponse_unread (r : Request.t) (resp : Response.t)
    (req : http_Request.t) (rc : ReadCloser) (e : error) :
  Response.Body resp = Some rc -> rc_end rc = Some e ->
  exists e', transformResponse r resp req = Result.of_err e'.
Proof.
  unfold transformResponse. intros -> He. destruct rc as [d e0]; simpl in *; subst.
  destruct e; eauto.
Qed.


(** C1, as amended: the Result of [transformResponse] carries no error
    exactly when its status code is in [200, 206] or is 101 Switching
    Protocols; in particular every status code outside [200, 300) other than
    101 comes with an error, and so does every status code from 207 to 299. *)
Theorem transformResponse_error_invariant (r : Request.t) (resp : Response.t)
    (req : http_Request.t) :
  (Result.err (transformResponse r resp req) = None <->
   (200 <= Result.statusCode (transformResponse r resp req) <= 206
    \/ Result.statusCode (transformResponse r resp req) = 101))
  /\ (~ (200 <= Result.statusCode (transformResponse r resp req) < 300) ->
      Result.statusCode (transformResponse r resp req) <> 101 ->
      exists e, Result.err (transformResponse r resp req) = Some e)
  /\ (206 < Result.statusCode (transformResponse r resp req) < 300 ->
      exists e, Result.err (transformResponse r resp req) = Some e).
Proof.
  assert (Hiff : Result.err (transformResponse r resp req) = None <->
    (200 <= Result.statusCode (transformResponse r resp req) <= 206
     \/ Result.statusCode (transformResponse r resp req) = 101)).
  { destruct (Response.Body resp) as [rc|] eqn:Hb.
    - destruct (rc_end rc) as [e|] eqn:He.
      + destruct (transformResponse_unread r resp req rc e Hb He) as [e' ->].
        simpl. split; [done | lia].
      + destruct (transformResponse_read r resp req (rc_data rc)) as (_ & -> & _ & _ & ->).
        { unfold body_read. by rewrite Hb. }
        destruct (Z.eqb_spec (Response.StatusCode resp) 101); [split; [lia | done]|].
        destruct (Z.ltb_spec (Response.StatusCode resp) 200);
          destruct (Z.ltb_spec 206 (Response.StatusCode resp)); simpl;
          split; try done; try lia.
    - destruct (transformResponse_read r resp req []) as (_ & -> & _ & _ & ->).
      { unfold body_read. by rewrite Hb. }
      destruct (Z.eqb_spec (Response.StatusCode resp) 101); [split; [lia | done]|].
      destruct (Z.ltb_spec (Response.StatusCode resp) 200);
        destruct (Z.ltb_spec 206 (Response.StatusCode resp)); simpl;
        split; try done; try lia. }
  split; [exact Hiff|].
  split.
  - intros Hout Hne.
    destruct (Result.err (transformResponse r resp req)) as [e|]; [eauto|].
    destruct Hiff as [Hiff _]. destruct (Hiff eq_refl); [lia | done].
  - intros Hin.
    destruct (Result.err (transformResponse r resp req)) as [e|]; [eauto|].
    destruct Hiff as [Hiff _]. destruct (Hiff eq_refl); lia.
Qed.

Lemma take_cap (body : bytes) :
  (if maxUnstructuredResponseTextBytes <? Z.of_nat (length body)
   then take (Z.to_nat maxUnstructuredResponseTextBytes) body else body)
  = take 2048 body.
Proof.
  unfold maxUnstructuredResponseTextBytes.
  destruct (Z.ltb_spec 2048 (Z.of_nat (length body))); [done|].
  symmetry. apply take_ge. lia.
Qed.

(** C6, as amended: for a failure status of 403, 406 or 415 the message of
    the structured error is the body text, cut to 2048 bytes and trimmed,
    when the response is texty, and "unknown" otherwise; this is so for the
    error constructor and for the Result of [transformResponse].  For 429 the
    message is a fixed text, whatever the body. *)
Theorem server_message_statuses (r : Request.t) (body : bytes) (isText : bool)
    (method : string) (retryAfter : Z) (code : Z) :
  ((code = 403 \/ code = 406 \/ code = 415) ->
   newUnstructuredResponseError r body isText code method retryAfter
   = StatusError (if isText
                  then strings_TrimSpace (string_of_bytes (take 2048 body))
                  else "unknown"))
  /\ (forall resp req,
        (code = 403 \/ code = 406 \/ code = 415) ->
        Response.StatusCode resp = code -> body_read resp body ->
        Result.err (transformResponse r resp req)
        = Some (StatusError (if isTextResponse resp
                             then strings_TrimSpace (string_of_bytes (take 2048 body))
                             else "unknown")))
  /\ (code = 429 ->
      newUnstructuredResponseError r body isText code method retryAfter
      = StatusError
          "the server has received too many requests and has asked us to try again later").
Proof.
  assert (H1 : forall isText method retryAfter,
    (code = 403 \/ code = 406 \/ code = 415) ->
    newUnstructuredResponseError r body isText code method retryAfter
    = StatusError (if isText
                   then strings_TrimSpace (string_of_bytes (take 2048 body))
                   else "unknown")).
  { intros t m ra Hc. unfold newUnstructuredResponseError. rewrite take_cap.
    destruct Hc as [->|[->| ->]]; reflexivity. }
  split; [by apply H1|]. split.
  - intros resp req Hc Hs Hread.
    destruct (transformResponse_read r resp req body Hread) as (_ & _ & _ & _ & ->).
    rewrite Hs.
    assert ((code =? 101) = false) as -> by lia.
    assert (((code <? 200) || (206 <? code)) = true) as -> by lia.
    by rewrite H1.
  - intros ->. reflexivity.
Qed.


(** ** Result.Into and Result.Raw *)

Lemma Into_decodes (r : Result.t) (obj : Target) (mt : string) (dec : Decoder) :
  Result.err r = None -> Result.body r <> [] ->
  mime_ParseMediaType (Result.contentType r) = inr mt ->
  Result.decoder r = Some dec ->
  Into r obj = into_return (dec_err (Decode dec (Result.body r) mt obj))
                           (dec_target (Decode dec (Result.body r) mt obj)).
Proof.
  intros He Hb Hm Hd. unfold Into. rewrite He, Hm, Hd.
  destruct (Result.body r) as [|b l]; [done|]. simpl.
  unfold out_equals_obj. rewrite orb_false_r.
  case_bool_decide as Hdec; [done|].
  destruct (dec_err _); [by destruct Hdec | done].
Qed.

(** C7, as amended: [Into] returns an error that no decoder has a part in
    exactly when the Result holds an earlier error, or its body has length
    zero, or its Content-Type does not parse as a media type; the error is
    then the earlier error, the "0-length response" error, or the parse
    error, in this order, and the target is untouched.  In every other case
    [Into] returns what the decoder returns.  For a response with a status
    code in [200, 206] and an empty body, [Raw] returns the empty bytes and no
    error while [Into] fails with the "0-length response" error. *)
Theorem Into_fails_before_decoding (r : Result.t) (obj : Target) :
  ((exists e, forall d, Into (with_decoder r d) obj = into_return (Some e) obj)
   <-> (Result.err r <> None \/ Result.body r = []
        \/ exists e, mime_ParseMediaType (Result.contentType r) = inl e))
  /\ (forall e, Result.err r = Some e -> Into r obj = into_return (Some e) obj)
  /\ (Result.err r = None -> Result.body r = [] ->
      Into r obj = into_return (Some Errorf_zero_length) obj)
  /\ (forall e, Result.err r = None -> Result.body r <> [] ->
      mime_ParseMediaType (Result.contentType r) = inl e ->
      Into r obj = into_return (Some e) obj)
  /\ (forall mt dec, Result.err r = None -> Result.body r <> [] ->
      mime_ParseMediaType (Result.contentType r) = inr mt ->
      Result.decoder r = Some dec ->
      Into r obj = into_return (dec_err (Decode dec (Result.body r) mt obj))
                               (dec_target (Decode dec (Result.body r) mt obj)))
  /\ (forall rq resp req,
      200 <= Response.StatusCode resp <= 206 -> body_read resp [] ->
      Raw (transformResponse rq resp req) = ([], None)
      /\ Into (transformResponse rq resp req) obj
         = into_return (Some Errorf_zero_length) obj).
Proof.
  assert (Herr : forall r e, Result.err r = Some e ->
            Into r obj = into_return (Some e) obj).
  { intros r' e He. unfold Into, Error. rewrite He. by destruct (_ || _). }
  assert (Hzero : forall r, Result.err r = None -> Result.body r = [] ->
            Into r obj = into_return (Some Errorf_zero_length) obj).
  { intros r' He Hb. unfold Into. by rewrite He, Hb. }
  assert (Hparse : forall r e, Result.err r = None -> Result.body r <> [] ->
            mime_ParseMediaType (Result.contentType r) = inl e ->
            Into r obj = into_return (Some e) obj).
  { intros r' e He Hb Hm. unfold Into. rewrite He, Hm.
    by destruct (Result.body r'). }
  split; [|split; [|split; [|split; [|split]]]].
  - split.
    + intros [e He].
      destruct (Result.err r) as [e0|] eqn:Hr; [by left|]. right.
      destruct (Result.body r) as [|b l] eqn:Hb; [by left|]. right.
      destruct (mime_ParseMediaType (Result.contentType r)) as [e1|mt] eqn:Hm; [eauto|].
      specialize (He (Some idle_decoder)).
      rewrite (Into_decodes _ obj mt idle_decoder) in He; simpl; try done.
      by rewrite Hb.
    + intros [Hr|[Hb|[e Hm]]].
      * destruct (Result.err r) as [e|] eqn:He; [|done].
        exists e. intros d. by apply Herr.
      * destruct (Result.err r) as [e|] eqn:He.
        -- exists e. intros d. by apply Herr.
        -- exists Errorf_zero_length. intros d. by apply Hzero.
      * destruct (Result.err r) as [e0|] eqn:He.
        -- exists e0. intros d. by apply Herr.
        -- destruct (Result.body r) as [|b l] eqn:Hb.
           ++ exists Errorf_zero_length. intros d. by apply Hzero.
           ++ exists e. intros d. apply Hparse; simpl; try done. by rewrite Hb.
  - apply Herr.
  - apply Hzero.
  - apply Hparse.
  - intros mt dec. apply Into_decodes.
  - intros rq resp req Hcode Hread.
    destruct (transformResponse_read rq resp req [] Hread) as (Hb & _ & _ & _ & He).
    assert ((Response.StatusCode resp =? 101) = false) as Hn by lia.
    assert (((Response.StatusCode resp <? 200) || (206 <? Response.StatusCode resp)) = false)
      as Hr by lia.
    rewrite Hn, Hr in He.
    split; [unfold Raw; by rewrite Hb, He | by apply Hzero].
Qed.

(** [Decode] has no case for a media type outside the supported ones. *)
Lemma decode_Decode_unsupported (data : bytes) (mt : string) (into : Target) :
  mt ∉ supported_media_types ->
  decode_Decode data mt into
  = {| out_is_into := true; dec_err := None; dec_target := into |}.
Proof.
  intros Hmt. unfold decode_Decode, supported_media_types in *.
  repeat match goal with
  | |- context [String.eqb mt ?s] =>
      destruct (String.eqb_spec mt s) as [->|_]; [exfalso; apply Hmt; set_solver|]
  end.
  reflexivity.
Qed.

(** C8, as amended: for a Result without an earlier error, with a body that
    is not empty, and whose Content-Type parses as a media type outside
    application/json, application/yaml, application/xml and text/xml, [Into]
    returns no error and leaves the target as it was.  An absent Content-Type
    does not parse: [Into] then fails with the parse error, the target again
    untouched. *)
Theorem Into_unsupported_media_type (r : Result.t) (obj : Target) :
  Result.err r = None -> Result.body r <> [] ->
  Result.decoder r = Some NewDecode ->
  (forall mt, mime_ParseMediaType (Result.contentType r) = inr mt ->
     mt ∉ supported_media_types ->
     Into r obj = into_return None obj)
  /\ (Result.contentType r = "" ->
      Into r obj = into_return (Some (lib_error "mime: no media type")) obj).
Proof.
  intros He Hb Hd. split.
  - intros mt Hm Hmt.
    rewrite (Into_decodes r obj mt NewDecode He Hb Hm Hd). simpl.
    by rewrite decode_Decode_unsupported.
  - intros Hct. unfold Into. rewrite He, Hct, ParseMediaType_empty.
    by destruct (Result.body r).
Qed.

(** ** NewRequest *)

(** C10: the client that [NewRequest] builds skips certificate verification
    exactly when the base address contains "https" somewhere. *)
Theorem NewRequest_tls_verification (baseUrl verb : string) :
  exists dialer skip,
    Request.client (NewRequest baseUrl verb)
    = Some {| Transport :=
                Some {| DialContext := dialer;
                        TLSClientConfig := {| InsecureSkipVerify := skip |} |} |}
    /\ (skip = true <-> exists pre post, baseUrl = pre +:+ "https" +:+ post)
    /\ (skip = false <-> ~ exists pre post, baseUrl = pre +:+ "https" +:+ post).
Proof.
  eexists _, (negb (strings_Index baseUrl "https" =? -1)).
  split; [reflexivity|].
  pose proof (strings_Index_iff baseUrl "https") as Hi.
  destruct (Z.eqb_spec (strings_Index baseUrl "https") (-1)) as [Heq|Hne]; simpl.
  - split; [split; [done|]|split; [|done]].
    + intros H. apply Hi in H. done.
    + intros _ H. apply Hi in H. done.
  - split; [split; [|done]|split; [done|]].
    + intros _. by apply Hi.
    + intros H. destruct H. by apply Hi.
Qed.


(** ** The query of the composed URL *)

Lemma foldl_Values_Add_lookup (q : Values) (key : string) (values : list string)
    (k : string) :
  foldl (fun q value => Values_Add q key value) q values !! k
  = if decide (k = key)
    then match values with
         | [] => q !! key
         | _ => Some (default [] (q !! key) ++ values)
         end
    else q !! k.
Proof.
  revert q. induction values as [|v vs IH]; intros q; simpl.
  - by case_decide; subst.
  - rewrite IH. unfold Values_Add. case_decide as Hk.
    + rewrite lookup_insert_eq. simpl.
      destruct vs; simpl; [done|]. by rewrite <- app_assoc.
    + by rewrite lookup_insert_ne.
Qed.

(** The loop of [URL] over [r.params] copies every name that has values. *)
Lemma collect_lookup (p : Values) (k : string) :
  map_fold (fun key values (q : Values) =>
              foldl (fun q value => Values_Add q key value) q values) ∅ p !! k
  = match p !! k with
    | Some (v :: vs) => Some (v :: vs)
    | _ => None
    end.
Proof.
  revert k. apply (map_fold_weak_ind (fun (q p : Values) => forall k,
    q !! k = match p !! k with Some (v :: vs) => Some (v :: vs) | _ => None end)).
  - intros k. by rewrite !lookup_empty.
  - intros i x m q Hi IH k. rewrite foldl_Values_Add_lookup.
    case_decide as Hk.
    + subst k. rewrite lookup_insert_eq, IH, Hi. by destruct x.
    + rewrite lookup_insert_ne by done. apply IH.
Qed.

Lemma URL_query_lookup (r : Request.t) (k : string) :
  URL_query r !! k
  = if bool_decide (Request.timeout r <> 0 /\ k = "timeout")
    then Some [Duration_String (Request.timeout r)]
    else match default ∅ (Request.params r) !! k with
         | Some (v :: vs) => Some (v :: vs)
         | _ => None
         end.
Proof.
  unfold URL_query. destruct (Z.eqb_spec (Request.timeout r) 0) as [Ht|Ht].
  - rewrite bool_decide_eq_false_2 by tauto. apply collect_lookup.
  - unfold Values_Set. case_bool_decide as Hk.
    + destruct Hk as [_ ->]. by rewrite lookup_insert_eq.
    + rewrite lookup_insert_ne by (intros <-; tauto). apply collect_lookup.
Qed.

Lemma Param_chain (r : Request.t) (name : string) (values : list string) :
  Request.err r = None ->
  Request.err (foldl (fun r v => Param r name v) r values) = None
  /\ Request.timeout (foldl (fun r v => Param r name v) r values) = Request.timeout r
  /\ (values <> [] ->
      default ∅ (Request.params (foldl (fun r v => Param r name v) r values)) !! name
      = Some (param_values r name ++ values)).
Proof.
  induction values as [|v vs IH] using rev_ind; intros He; [done|].
  rewrite foldl_app. simpl.
  destruct (IH He) as (He' & Ht' & Hp').
  set (r' := foldl (fun r v => Param r name v) r vs) in *.
  unfold Param. rewrite He'. simpl.
  split; [done|]. split; [done|]. intros _.
  rewrite lookup_insert_eq. f_equal.
  destruct vs as [|v0 vs0]; [done|].
  rewrite Hp' by done. simpl. by rewrite <- app_assoc.
Qed.

Lemma Param_chain_timeout (r : Request.t) (name : string) (values : list string) :
  Request.timeout (foldl (fun r v => Param r name v) r values) = Request.timeout r.
Proof.
  induction values as [|v vs IH] using rev_ind; [done|].
  rewrite foldl_app. simpl. unfold Param.
  destruct (Request.err _); [done|]. simpl. apply IH.
Qed.

(** C9: the raw query of the composed URL is the encoding of a query in
    which, when a timeout other than zero is configured, the name "timeout"
    has exactly one value, the string form of the duration, whatever values
    [Param] added under that name; for every other name (and for "timeout"
    itself when no timeout is configured) the values added by repeated calls
    of [Param] follow the earlier ones, in the order of the calls. *)
Theorem URL_timeout_parameter (r : Request.t) :
  url_URL.RawQuery (URL r) = Values_Encode (URL_query r)
  /\ (Request.timeout r <> 0 ->
      URL_query r !! "timeout" = Some [Duration_String (Request.timeout r)]
      /\ forall values,
           URL_query (foldl (fun r v => Param r "timeout" v) r values) !! "timeout"
           = Some [Duration_String (Request.timeout r)])
  /\ (forall name values,
        name <> "timeout" \/ Request.timeout r = 0 ->
        Request.err r = None -> values <> [] ->
        URL_query (foldl (fun r v => Param r name v) r values) !! name
        = Some (param_values r name ++ values)).
Proof.
  split; [reflexivity|]. split.
  - intros Ht. split.
    + rewrite URL_query_lookup. by rewrite bool_decide_eq_true_2.
    + intros values. rewrite URL_query_lookup, Param_chain_timeout.
      by rewrite bool_decide_eq_true_2.
  - intros name values Hname He Hv.
    destruct (Param_chain r name values He) as (_ & Ht & Hp).
    rewrite URL_query_lookup, Ht.
    rewrite bool_decide_eq_false_2 by (intros [? ?]; destruct Hname; done).
    rewrite Hp by done.
    destruct (param_values r name ++ values) as [|x l] eqn:Hl; [|done].
    apply app_eq_nil in Hl as [_ ?]. done.
Qed.

(** ** The error latch *)

Lemma call_keeps_err (r : Request.t) (e : error) (c : Call) :
  Request.err r = Some e ->
  exists r', call r c = Some r'
    /\ Request.err r' = Some e
    /\ Request.verb r' = Request.verb r
    /\ Request.baseURL r' = Request.baseURL r
    /\ Request.pathPrefix r' = Request.pathPrefix r
    /\ Request.subpath r' = Request.subpath r
    /\ Request.params r' = Request.params r
    /\ Request.timeout r' = Request.timeout r
    /\ Request.body r' = Request.body r.
Proof.
  intros He.
  destruct c; simpl;
    unfold Timeout, Prefix, Suffix, AbsPath, RequestURI, Param, Body;
    rewrite ?He; eexists; (split; [reflexivity|]); by rewrite ?He.
Qed.

(** C5, as amended: once a configuration error is recorded, the methods
    Timeout, Prefix, Suffix, AbsPath, RequestURI, Param and Body leave the
    request as it is; HttpClient, Header and Context still store their
    argument but change no other field; no chain of configuration calls
    changes the recorded error, the verb, the base URL, the path, the query
    parameters, the timeout or the body; and [Do] and [Stream] fail with the
    recorded error without sending a request. *)
Theorem configuration_after_error (r : Request.t) (e : error) :
  Request.err r = Some e ->
  ((forall d, Timeout r d = r)
   /\ (forall segments, Prefix r segments = r)
   /\ (forall segments, Suffix r segments = r)
   /\ (forall segments, AbsPath r segments = Some r)
   /\ (forall uri, RequestURI r uri = r)
   /\ (forall name s, Param r name s = r)
   /\ (forall obj, Body r obj = r))
  /\ ((forall client, Request.with_client (HttpClient r client) (Request.client r) = r)
      /\ (forall key values,
            Request.with_headers (Header r key values) (Request.headers r) = r)
      /\ (forall ctx, Request.with_ctx (Context r ctx) (Request.ctx r) = r))
  /\ (forall cs, exists r',
        calls r cs = Some r'
        /\ Request.err r' = Some e
        /\ Request.verb r' = Request.verb r
        /\ Request.baseURL r' = Request.baseURL r
        /\ Request.pathPrefix r' = Request.pathPrefix r
        /\ Request.subpath r' = Request.subpath r
        /\ Request.params r' = Request.params r
        /\ Request.timeout r' = Request.timeout r
        /\ Request.body r' = Request.body r)
  /\ (forall net, Do net r = Some (Result.of_err e, start r Result.zero))
  /\ (forall net, Stream net r = ((None, Some e), [])).
Proof.
  intros He. split; [|split; [|split; [|split]]].
  - unfold Timeout, Prefix, Suffix, AbsPath, RequestURI, Param, Body.
    rewrite He. done.
  - by destruct r.
  - intros cs. revert r He. induction cs as [|c cs IH]; intros r He; simpl.
    + by exists r.
    + destruct (call_keeps_err r e c He) as (r1 & -> & He1 & H1).
      destruct (IH r1 He1) as (r2 & -> & He2 & H2).
      exists r2. split; [done|]. split; [done|].
      destruct H1 as (E1 & E2 & E3 & E4 & E5 & E6 & E7).
      rewrite E1, E2, E3, E4, E5, E6, E7 in H2. exact H2.
  - intros net. unfold Do, request. by rewrite He.
  - intros net. unfold Stream. by rewrite He.
Qed.


(** ** The retry loop *)

Section Loop.
Context {St : Type}.
Variables (r : Request.t) (client : http_Client)
          (fn : http_Request.t -> Response.t -> St -> St).

(** An iteration goes on only below the cap, and with exactly one more
    request sent. *)
Lemma iteration_again (net : Network) (retries : Z) (w : World St)
    (k : Z) (w' : World St) :
  iteration net r client fn retries w = step_again k w' ->
  k = retries + 1 /\ k < maxRetries
  /\ w_sent w' = w_sent w ++ [next_request r w]
  /\ w_cb w' = w_cb w.
Proof.
  unfold iteration, next_request.
  destruct (http_NewRequest_error _ _); [done|].
  set (req := build_request _ _ _).
  destruct (screened r (net client (length (w_sent w)) req)) as [e|resp]; [done|].
  destruct (snd (checkWait resp) && (retries + 1 <? maxRetries)) eqn:Hc; [|done].
  apply andb_prop in Hc as [_ Hlt]. apply Z.ltb_lt in Hlt.
  simpl. destruct (w_body w) as [rd|]; simpl.
  - destruct (rd_seek rd); intros [= <- <-]; done.
  - intros [= <- <-]; done.
Qed.

(** The loop ends within the fuel that [request] gives it. *)
Lemma request_loop_total (net : Network) (fuel : nat) (retries : Z) (w : World St) :
  (0 < fuel)%nat -> maxRetries - retries <= Z.of_nat fuel ->
  exists out, request_loop fuel net r client fn retries w = Some out.
Proof.
  revert retries w. induction fuel as [|fuel IH]; intros retries w Hpos Hfuel; [lia|].
  simpl. destruct (iteration net r client fn retries w) as [e w'|k w'] eqn:Hit; [eauto|].
  apply iteration_again in Hit as (-> & Hlt & _).
  apply IH; lia.
Qed.

(** The loop asks the network only for requests not yet sent. *)
Lemma request_loop_ext (net net' : Network) (fuel : nat) (retries : Z) (w : World St) :
  (forall m req, (length (w_sent w) <= m)%nat -> net client m req = net' client m req) ->
  request_loop fuel net r client fn retries w
  = request_loop fuel net' r client fn retries w.
Proof.
  revert retries w. induction fuel as [|fuel IH]; intros retries w Hext; [done|].
  simpl.
  assert (Hit : iteration net r client fn retries w
                = iteration net' r client fn retries w).
  { unfold iteration. by rewrite Hext. }
  rewrite <- Hit.
  destruct (iteration net r client fn retries w) as [e w'|k w'] eqn:Hi; [done|].
  apply iteration_again in Hi as (_ & _ & Hs & _).
  apply IH. intros m req Hm. apply Hext.
  rewrite Hs, length_app in Hm. simpl in Hm. lia.
Qed.

(** One iteration on a response that asks to wait, by the state of the body. *)
Lemma iteration_wait (net : Network) (retries : Z) (w : World St) (resp : Response.t) :
  http_NewRequest_error (Request.verb r) (URL_String (URL r)) = None ->
  screened r (net client (length (w_sent w)) (next_request r w)) = inr resp ->
  snd (checkWait resp) = true ->
  iteration net r client fn retries w
  = if retries + 1 <? maxRetries then
      match w_body w with
      | Some rd =>
          match rd_seek rd with
          | SeekSucceeds =>
              step_again (retries + 1)
                {| w_sent := w_sent w ++ [next_request r w];
                   w_body := Some (reader_rewind rd);
                   w_cb := w_cb w |}
          | SeekFails _ =>
              step_return None
                (deliver fn (next_request r w) resp (after_send (next_request r w) w))
          | NotSeeker => step_again (retries + 1) (after_send (next_request r w) w)
          end
      | None => step_again (retries + 1) (after_send (next_request r w) w)
      end
    else step_return None
           (deliver fn (next_request r w) resp (after_send (next_request r w) w)).
Proof.
  intros Hnew Hans Hwait. unfold iteration, next_request in *.
  rewrite Hnew, Hans, Hwait. simpl.
  destruct (retries + 1 <? maxRetries); [|done].
  destruct (w_body w) as [rd|]; simpl; [|done].
  by destruct (rd_seek rd).
Qed.

(** With a body that rewinds and a network whose every answer asks to wait,
    the loop sends requests until the counter reaches the cap, and delivers
    the answer to the last one. *)
Lemma request_loop_retryable (net : Network) (k : nat) :
  http_NewRequest_error (Request.verb r) (URL_String (URL r)) = None ->
  (forall n req, exists resp,
      net client n req = inr resp /\ snd (checkWait resp) = true) ->
  forall (fuel : nat) (retries : Z) (w : World St) (rd : Reader),
  w_body w = Some rd -> rd_seek rd = SeekSucceeds ->
  0 <= retries -> retries + Z.of_nat (S k) = maxRetries -> (S k <= fuel)%nat ->
  exists w' req resp,
    request_loop fuel net r client fn retries w = Some (None, w')
    /\ length (w_sent w') = (length (w_sent w) + S k)%nat
    /\ w_sent w' !! (length (w_sent w) + k)%nat = Some req
    /\ net client (length (w_sent w) + k)%nat req = inr resp
    /\ w_cb w' = fn req resp (w_cb w).
Proof.
  intros Hnew Hnet. induction k as [|k IH];
    intros fuel retries w rd Hb Hseek Hret Hcap Hfuel;
    (destruct fuel as [|fuel]; [lia|]);
    destruct (Hnet (length (w_sent w)) (next_request r w)) as (resp & Hans & Hwait);
    simpl; rewrite (iteration_wait net retries w resp Hnew) by (by rewrite ?Hans);
    unfold maxRetries in *.
  - assert ((retries + 1 <? 10) = false) as -> by lia.
    eexists _, (next_request r w), resp. split; [reflexivity|]. simpl.
    rewrite length_app, Nat.add_0_r. simpl.
    split; [done|]. split; [|done].
    rewrite lookup_app_r by lia. by rewrite Nat.sub_diag.
  - assert ((retries + 1 <? 10) = true) as -> by lia.
    rewrite Hb, Hseek.
    destruct (IH fuel (retries + 1)
                {| w_sent := w_sent w ++ [next_request r w];
                   w_body := Some (reader_rewind rd);
                   w_cb := w_cb w |} (reader_rewind rd))
      as (w' & req & resp' & -> & Hlen & Hlast & Hresp & Hcb);
      try reflexivity; try lia; try done.
    simpl in *. rewrite length_app in *. simpl in *.
    exists w', req, resp'. split; [done|].
    replace (length (w_sent w) + S k)%nat with (length (w_sent w) + 1 + k)%nat by lia.
    split; [lia|]. done.
Qed.

End Loop.

(** The loop of [request] always returns. *)
Lemma request_total {St} (net : Network) (r : Request.t)
    (fn : http_Request.t -> Response.t -> St -> St) (w : World St) :
  exists out, request net r fn w = Some out.
Proof.
  unfold request. destruct (Request.err r); [eauto|].
  apply request_loop_total; unfold maxRetries; simpl; lia.
Qed.

(** [Do] always returns a Result. *)
Lemma Do_total (net : Network) (r : Request.t) :
  exists res w, Do net r = Some (res, w).
Proof.
  unfold Do.
  destruct (request_total net r (classify r) (start r Result.zero))
    as [[[e|] w] ->]; eauto.
Qed.


(** C2: against a network that answers every request with status 503 and a
    Retry-After header that parses, a request that has no configuration
    error, that [http.NewRequest] accepts and whose body rewinds is sent
    exactly 10 times by [Do], and the Result is the classification of the
    answer to the tenth request. *)
Theorem Do_retry_bound (net : Network) (r : Request.t) (rd : Reader) :
  Request.err r = None ->
  http_NewRequest_error (Request.verb r) (URL_String (URL r)) = None ->
  Request.body r = Some rd -> rd_seek rd = SeekSucceeds ->
  (forall n req, exists resp,
      net (default http_DefaultClient (Request.client r)) n req = inr resp
      /\ Response.StatusCode resp = 503
      /\ snd (retryAfterSeconds resp) = true) ->
  exists w req resp,
    Do net r = Some (transformResponse r resp req, w)
    /\ length (w_sent w) = 10%nat
    /\ w_sent w !! 9%nat = Some req
    /\ net (default http_DefaultClient (Request.client r)) 9%nat req = inr resp.
Proof.
  intros He Hnew Hb Hseek Hnet.
  destruct (request_loop_retryable r (default http_DefaultClient (Request.client r))
              (classify r) net 9 Hnew)
    with (fuel := 10%nat) (retries := 0) (w := start r Result.zero) (rd := rd)
    as (w & req & resp & Hloop & Hlen & Hlast & Hresp & Hcb);
    try done; try (unfold maxRetries; lia).
  - intros n req. destruct (Hnet n req) as (resp & Hans & Hcode & Hra).
    exists resp. split; [done|]. unfold checkWait. rewrite Hcode. exact Hra.
  - exists w, req, resp. unfold Do, request. rewrite He.
    change (Z.to_nat maxRetries) with 10%nat. rewrite Hloop, Hcb.
    simpl in *. done.
Qed.

(** X18: what the loop does, as the code is written, with an answer that
    asks to wait.  A body whose [Seek] fails ends the loop, whatever is left of
    the retry budget, and the completion callback receives that answer.  A
    body that has no [Seek] at all, and the absence of a body, do not end it:
    below the cap the loop goes on to the next iteration without a call of the
    callback, so that a stream that cannot seek is sent again as the first
    attempt left it (the defect of C3). *)
Theorem unseekable_body_retry {St : Type} (net : Network) (r : Request.t)
    (client : http_Client) (fn : http_Request.t -> Response.t -> St -> St)
    (fuel : nat) (retries : Z) (w : World St) (resp : Response.t) :
  http_NewRequest_error (Request.verb r) (URL_String (URL r)) = None ->
  net client (length (w_sent w)) (next_request r w) = inr resp ->
  snd (checkWait resp) = true ->
  (forall rd e, w_body w = Some rd -> rd_seek rd = SeekFails e ->
     request_loop (S fuel) net r client fn retries w
     = Some (None, deliver fn (next_request r w) resp (after_send (next_request r w) w)))
  /\ ((w_body w = None \/ exists rd, w_body w = Some rd /\ rd_seek rd = NotSeeker) ->
      retries + 1 < maxRetries ->
      request_loop (S fuel) net r client fn retries w
      = request_loop fuel net r client fn (retries + 1)
          (after_send (next_request r w) w)).
Proof.
  intros Hnew Hans Hwait.
  assert (Hit := iteration_wait r client fn net retries w resp Hnew).
  rewrite Hans in Hit. specialize (Hit eq_refl Hwait).
  split.
  - intros rd e Hb Hseek. simpl. rewrite Hit, Hb, Hseek.
    by destruct (retries + 1 <? maxRetries).
  - intros Hb Hlt. simpl. rewrite Hit.
    assert ((retries + 1 <? maxRetries) = true) as -> by lia.
    destruct Hb as [-> | (rd & -> & ->)]; done.
Qed.

Lemma checkWait_reset_placeholder : checkWait reset_placeholder = (1, true).
Proof.
  unfold checkWait, retryAfterSeconds, reset_placeholder, Header_Get. simpl.
  rewrite canonical_Retry_After, lookup_singleton_eq. reflexivity.
Qed.

(** C4: when sending a request fails with an error, and the error is a
    connection reset and the verb is GET, the loop runs as it does on a
    network that answered this request with status 500, the header
    Retry-After: 1 and an empty body, an answer that asks to wait; for every
    other error and for every other verb the loop returns the error at once,
    with no call of the completion callback and no further request. *)
Theorem send_error_handling {St : Type} (net : Network) (r : Request.t)
    (client : http_Client) (fn : http_Request.t -> Response.t -> St -> St)
    (fuel : nat) (retries : Z) (w : World St) (e : error) :
  http_NewRequest_error (Request.verb r) (URL_String (URL r)) = None ->
  net client (length (w_sent w)) (next_request r w) = inl e ->
  (IsConnectionReset e = true /\ Request.verb r = "GET" ->
     request_loop fuel net r client fn retries w
     = request_loop fuel (answering net (length (w_sent w)) reset_placeholder)
         r client fn retries w
     /\ Response.StatusCode reset_placeholder = 500
     /\ Response.Header reset_placeholder = {[ "Retry-After" := ["1"] ]}
     /\ checkWait reset_placeholder = (1, true))
  /\ (IsConnectionReset e = false \/ Request.verb r <> "GET" ->
      request_loop (S fuel) net r client fn retries w
      = Some (Some e, after_send (next_request r w) w)).
Proof.
  intros Hnew Hans. split.
  - intros [Hreset Hverb].
    split; [|split; [done|split; [done|apply checkWait_reset_placeholder]]].
    destruct fuel as [|fuel]; [done|]. simpl.
    assert (Hit : iteration net r client fn retries w
                  = iteration (answering net (length (w_sent w)) reset_placeholder)
                      r client fn retries w).
    { unfold iteration, answering. rewrite Hnew.
      unfold next_request in Hans. rewrite Hans, Nat.eqb_refl.
      unfold screened. by rewrite Hreset, Hverb. }
    rewrite <- Hit.
    destruct (iteration net r client fn retries w) as [e' w'|k w'] eqn:Hi; [done|].
    apply iteration_again in Hi as (_ & _ & Hs & _).
    apply request_loop_ext. intros m req Hm. unfold answering.
    rewrite Hs, length_app in Hm. simpl in Hm.
    destruct (Nat.eqb_spec m (length (w_sent w))); [lia | done].
  - intros Hor. simpl. unfold iteration. rewrite Hnew.
    unfold next_request in Hans. rewrite Hans. unfold screened.
    destruct Hor as [-> | Hverb]; [done|].
    destruct (String.eqb_spec (Request.verb r) "GET"); [done|].
    by rewrite orb_true_r.
Qed.

End Properties.

(** * Further properties of the package *)

Section Coverage.
Context `{Std : GoStd}.

(** ** The retry loop: what every execution does *)

(** An iteration that returns either failed to build the request (nothing
    was sent, the error is returned), or sent one request and then returned
    the transport's error without a call of the callback, or delivered the
    screened answer to the callback. *)
Lemma iteration_return {St : Type} (net : Network) (r : Request.t)
    (client : http_Client) (fn : http_Request.t -> Response.t -> St -> St)
    (retries : Z) (w : World St) (e : option error) (w' : World St) :
  iteration net r client fn retries w = step_return e w' ->
  (w' = w /\ e = http_NewRequest_error (Request.verb r) (URL_String (URL r))
   /\ e <> None)
  \/ (w_sent w' = w_sent w ++ [next_request r w]
      /\ match e with
         | Some err =>
             w_cb w' = w_cb w
             /\ screened r (net client (length (w_sent w)) (next_request r w)) = inl err
         | None =>
             exists resp,
               screened r (net client (length (w_sent w)) (next_request r w)) = inr resp
               /\ w_cb w' = fn (next_request r w) resp (w_cb w)
         end).
Proof.
  unfold iteration, next_request.
  destruct (http_NewRequest_error _ _) as [e0|] eqn:Hnew.
  { intros [= <- <-]. left. done. }
  set (req := build_request _ _ _).
  destruct (screened r (net client (length (w_sent w)) req)) as [e0|resp] eqn:Hans.
  { intros [= <- <-]. right. done. }
  intros Hret. right.
  destruct (snd (checkWait resp) && (retries + 1 <? maxRetries)).
  - simpl in Hret. destruct (w_body w) as [rd|]; simpl in Hret; [|done].
    destruct (rd_seek rd); try done.
    injection Hret as <- <-. simpl. eauto.
  - injection Hret as <- <-. simpl. eauto.
Qed.

(** The loop returns an error without having called the callback, or it
    returns nil after exactly one call of the callback, on the last request
    sent and the screened answer to it; and it sends at most as many requests
    as the retry counter is below the cap (one when it is at the cap). *)
Lemma request_loop_outcome {St : Type} (net : Network) (r : Request.t)
    (client : http_Client) (fn : http_Request.t -> Response.t -> St -> St)
    (fuel : nat) (retries : Z) (w : World St) (e : option error) (w' : World St) :
  request_loop fuel net r client fn retries w = Some (e, w') ->
  0 <= retries ->
  (length (w_sent w') <= length (w_sent w) + Z.to_nat (Z.max 1 (maxRetries - retries)))%nat
  /\ (exists more, w_sent w' = w_sent w ++ more)
  /\ match e with
     | Some err => w_cb w' = w_cb w
     | None =>
         exists req resp,
           last (w_sent w') = Some req
           /\ screened r (net client (length (w_sent w') - 1)%nat req) = inr resp
           /\ w_cb w' = fn req resp (w_cb w)
     end.
Proof.
  revert retries w. induction fuel as [|fuel IH]; intros retries w Hloop Hret; [done|].
  simpl in Hloop.
  destruct (iteration net r client fn retries w) as [e1 w1|k w1] eqn:Hit.
  - injection Hloop as <- <-.
    apply iteration_return in Hit as [(-> & He & Hne)|(Hs & Hcb)].
    + split; [lia|]. split; [by exists []; rewrite app_nil_r|].
      by destruct e1.
    + rewrite Hs, length_app. simpl. split; [lia|]. split; [eauto|].
      destruct e1 as [err|]; [by destruct Hcb|].
      destruct Hcb as (resp & Hans & Hcb).
      exists (next_request r w), resp. rewrite last_snoc.
      split; [done|]. split; [|done].
      by replace (length (w_sent w) + 1 - 1)%nat with (length (w_sent w)) by lia.
  - apply iteration_again in Hit as (-> & Hlt & Hs & Hcb).
    destruct (IH _ _ Hloop) as (Hlen & (more & Hmore) & Hout); [lia|].
    rewrite Hs, length_app in Hlen. simpl in Hlen. unfold maxRetries in *.
    split; [lia|]. split.
    + exists (next_request r w :: more). rewrite Hmore, Hs, <- app_assoc. done.
    + destruct e; by rewrite <- Hcb.
Qed.

(** X1: [Do] returns for every network and every request, and one execution
    sends at most 10 requests. *)
Theorem Do_sends_at_most_10 (net : Network) (r : Request.t) :
  exists res w, Do net r = Some (res, w) /\ (length (w_sent w) <= 10)%nat.
Proof.
  destruct (Do_total net r) as (res & w & HDo).
  exists res, w. split; [done|].
  unfold Do, request in HDo.
  destruct (Request.err r) as [e|].
  { injection HDo as <- <-. simpl. lia. }
  destruct (request_loop _ _ _ _ _ _ _) as [[e w0]|] eqn:Hloop; [|done].
  apply request_loop_outcome in Hloop as (Hlen & _); [|lia].
  simpl in Hlen. unfold maxRetries in Hlen.
  destruct e; injection HDo as <- <-; lia.
Qed.

(** What [Do] returned is an error kept before any answer was classified,
    or the classification of the answer to the last request. *)
Lemma Do_result_of (net : Network) (r : Request.t) (res : Result.t)
    (w : World Result.t) :
  Do net r = Some (res, w) ->
  (exists e, res = Result.of_err e /\ w_cb w = Result.zero)
  \/ (exists req resp,
        res = transformResponse r resp req
        /\ last (w_sent w) = Some req
        /\ screened r (net (default http_DefaultClient (Request.client r))
                         (length (w_sent w) - 1)%nat req) = inr resp).
Proof.
  unfold Do, request. destruct (Request.err r) as [e|].
  { intros [= <- <-]. left. eauto. }
  match goal with
  | |- context [request_loop ?f ?n ?rr ?c ?g ?k ?ww] =>
      destruct (request_loop f n rr c g k ww) as [[e w0]|] eqn:Hloop; [|done]
  end.
  apply request_loop_outcome in Hloop as (_ & _ & Hout); [|lia].
  destruct e as [e|]; intros [= <- <-].
  - left. eauto.
  - right. destruct Hout as (req & resp & Hlast & Hans & ->). eauto.
Qed.


(** [Into] on a classification never reaches a nil decoder. *)
Lemma Into_transformResponse_returns (r : Request.t) (resp : Response.t)
    (req : http_Request.t) (obj : Target) :
  exists e obj', Into (transformResponse r resp req) obj = into_return e obj'.
Proof.
  destruct (Response.Body resp) as [rc|] eqn:Hb.
  - destruct (rc_end rc) as [e|] eqn:He.
    + destruct (transformResponse_unread r resp req rc e Hb He) as [e' ->].
      unfold Into. simpl. eauto.
    + destruct (transformResponse_read r resp req (rc_data rc)) as (_ & _ & _ & Hd & _).
      { unfold body_read. by rewrite Hb. }
      unfold Into. rewrite Hd.
      destruct (Result.err _); [eauto|].
      destruct (_ =? _); [eauto|].
      destruct (mime_ParseMediaType _); [eauto|].
      destruct (_ || _); eauto.
  - destruct (transformResponse_read r resp req []) as (_ & _ & _ & Hd & _).
    { unfold body_read. by rewrite Hb. }
    unfold Into. rewrite Hd.
    destruct (Result.err _); [eauto|].
    destruct (_ =? _); [eauto|].
    destruct (mime_ParseMediaType _); [eauto|].
    destruct (_ || _); eauto.
Qed.

(** X3: [Into] never panics on the Result that [Do] returns: the nil decoder
    of [Result{err: e}] is never called. *)
Theorem Do_Into_returns (net : Network) (r : Request.t) (obj : Target) :
  exists res w e obj',
    Do net r = Some (res, w) /\ Into res obj = into_return e obj'.
Proof.
  destruct (Do_total net r) as (res & w & HDo).
  assert (exists e obj', Into res obj = into_return e obj') as (e & obj' & HI).
  { apply Do_result_of in HDo as [(e & -> & _)|(req & resp & -> & _)].
    - unfold Into. simpl. eauto.
    - apply Into_transformResponse_returns. }
  by exists res, w, e, obj'.
Qed.

(** An answer that is no wait candidate ends the loop at once. *)
Lemma Do_terminal_first_answer (net : Network) (r : Request.t) (resp : Response.t) :
  Request.err r = None ->
  http_NewRequest_error (Request.verb r) (URL_String (URL r)) = None ->
  net (default http_DefaultClient (Request.client r)) 0%nat
      (next_request r (start r Result.zero)) = inr resp ->
  snd (checkWait resp) = false ->
  exists w,
    Do net r
    = Some (transformResponse r resp (next_request r (start r Result.zero)), w)
    /\ w_sent w = [next_request r (start r Result.zero)].
Proof.
  intros He Hnew Hans Hwait. unfold Do, request. rewrite He.
  change (Z.to_nat maxRetries) with 10%nat. simpl.
  unfold iteration. rewrite Hnew. unfold next_request in Hans. simpl in *.
  rewrite Hans. simpl. rewrite Hwait. simpl. eexists. split; reflexivity.
Qed.


(** ** Replay of the body *)

Lemma request_loop_S {St : Type} (net : Network) (r : Request.t)
    (client : http_Client) (fn : http_Request.t -> Response.t -> St -> St)
    (fuel : nat) (retries : Z) (w : World St) :
  request_loop (S fuel) net r client fn retries w
  = match iteration net r client fn retries w with
    | step_return e w => Some (e, w)
    | step_again retries w => request_loop fuel net r client fn retries w
    end.
Proof. reflexivity. Qed.

Lemma request_loop_replays {St : Type} (net : Network) (r : Request.t)
    (client : http_Client) (fn : http_Request.t -> Response.t -> St -> St)
    (data : bytes) (fuel : nat) :
  forall (retries : Z) (w : World St) (rd : Reader) (e : option error) (w' : World St),
  w_body w = Some rd -> rd_seek rd = SeekSucceeds -> rd_pos rd = 0%nat ->
  rd_data rd = data ->
  request_loop fuel net r client fn retries w = Some (e, w') ->
  exists more,
    w_sent w' = w_sent w ++ more
    /\ Forall (fun q => http_Request.Body q = Some data) more.
Proof.
  induction fuel as [|fuel IH]; intros retries w rd e w' Hb Hseek Hpos Hdata Hloop; [done|].
  assert (Hreq : http_Request.Body (next_request r w) = Some data).
  { unfold next_request, build_request. simpl. rewrite Hb. simpl.
    unfold reader_rest. by rewrite Hpos, Hdata. }
  simpl in Hloop.
  destruct (iteration net r client fn retries w) as [e1 w1|k w1] eqn:Hit.
  - injection Hloop as <- <-.
    apply iteration_return in Hit as [(-> & _)|(Hs & _)].
    + exists []. by rewrite app_nil_r.
    + exists [next_request r w]. split; [done|]. by constructor.
  - assert (Hw1 : w_sent w1 = w_sent w ++ [next_request r w]
                  /\ w_body w1 = Some (reader_rewind (reader_drain rd))).
    { revert Hit. unfold iteration, next_request.
      destruct (http_NewRequest_error _ _); [done|].
      destruct (screened r _); [done|].
      destruct (_ && _); [|done]. simpl. rewrite Hb. simpl. rewrite Hseek.
      by intros [= <- <-]. }
    destruct Hw1 as [Hs Hb1].
    destruct (IH k w1 _ e w' Hb1 Hseek eq_refl Hdata Hloop) as (more & Hmore & Hall).
    exists (next_request r w :: more). split.
    + by rewrite Hmore, Hs, <- app_assoc.
    + by constructor.
Qed.

Lemma Do_replays (net : Network) (r : Request.t) (rd : Reader)
    (res : Result.t) (w : World Result.t) :
  Request.body r = Some rd -> rd_seek rd = SeekSucceeds -> rd_pos rd = 0%nat ->
  Do net r = Some (res, w) ->
  Forall (fun q => http_Request.Body q = Some (rd_data rd)) (w_sent w).
Proof.
  intros Hb Hseek Hpos. unfold Do, request.
  destruct (Request.err r) as [e|].
  { intros [= <- <-]. constructor. }
  match goal with
  | |- context [request_loop ?f ?n ?rr ?c ?g ?k ?ww] =>
      destruct (request_loop f n rr c g k ww) as [[e w0]|] eqn:Hloop; [|done]
  end.
  apply (request_loop_replays _ _ _ _ (rd_data rd)) with (rd := rd)
    in Hloop as (more & Hmore & Hall); try done.
  simpl in Hmore. subst more.
  by destruct e; intros [= <- <-].
Qed.

(** X5: after [Body] was given a byte slice, every request that [Do] sends,
    the first one and every retry, on any network, carries the whole slice:
    the reader is rewound before each retry. *)
Theorem Do_replays_bytes (net : Network) (r : Request.t) (data : bytes) :
  Request.err r = None ->
  exists res w,
    Do net (Body r (body_bytes data)) = Some (res, w)
    /\ Forall (fun q => http_Request.Body q = Some data) (w_sent w).
Proof.
  intros He.
  destruct (Do_total net (Body r (body_bytes data))) as (res & w & HDo).
  exists res, w. split; [done|].
  apply (Do_replays net (Body r (body_bytes data)) (bytes_NewReader data) res w);
    try done.
  unfold Body. by rewrite He.
Qed.

(** X6: when the first answer asks to wait and the second is final, the
    first request carries what was left to read of the body, and the second
    request carries the whole data of a body that can seek, from its very
    start, but nothing, an empty body, of a body that cannot seek. *)
Theorem second_attempt_body (net : Network) (r : Request.t) (rd : Reader)
    (resp0 resp1 : Response.t) :
  Request.err r = None ->
  http_NewRequest_error (Request.verb r) (URL_String (URL r)) = None ->
  Request.body r = Some rd ->
  (forall req, net (default http_DefaultClient (Request.client r)) 0%nat req
               = inr resp0) ->
  (forall req, net (default http_DefaultClient (Request.client r)) 1%nat req
               = inr resp1) ->
  snd (checkWait resp0) = true -> snd (checkWait resp1) = false ->
  (rd_seek rd = SeekSucceeds ->
   exists res w,
     Do net r = Some (res, w)
     /\ http_Request.Body <$> w_sent w
        = [Some (drop (rd_pos rd) (rd_data rd)); Some (rd_data rd)])
  /\ (rd_seek rd = NotSeeker ->
      exists res w,
        Do net r = Some (res, w)
        /\ http_Request.Body <$> w_sent w
           = [Some (drop (rd_pos rd) (rd_data rd)); Some []]).
Proof.
  intros He Hnew Hb H0 H1 Hw0 Hw1.
  set (client := default http_DefaultClient (Request.client r)) in *.
  set (w0 := start r Result.zero).
  assert (Hit0 := iteration_wait r client (classify r) net 0 w0 resp0 Hnew).
  rewrite H0 in Hit0. specialize (Hit0 eq_refl Hw0).
  change (0 + 1 <? maxRetries) with true in Hit0.
  change (w_body w0) with (Request.body r) in Hit0. rewrite Hb in Hit0.
  assert (Hfinal : forall w1, length (w_sent w1) = 1%nat ->
            iteration net r client (classify r) (0 + 1) w1
            = step_return None
                (deliver (classify r) (next_request r w1) resp1
                   (after_send (next_request r w1) w1))).
  { intros w1 Hlen. unfold iteration, next_request.
    rewrite Hnew, Hlen, H1. simpl. by rewrite Hw1. }
  split; intros Hseek; rewrite Hseek in Hit0;
    unfold Do, request; rewrite He;
    change (Z.to_nat maxRetries) with 10%nat;
    fold client; fold w0;
    rewrite request_loop_S, Hit0, request_loop_S, Hfinal by done;
    eexists _, _; (split; [reflexivity|]); simpl; rewrite Hb; simpl;
    unfold reader_rest; simpl.
  - done.
  - by rewrite drop_all.
Qed.

(** ** Stream *)

(** X7: [Stream] sends at most one request and never retries; it returns the
    body of the response, and no error, exactly when the request could be
    sent and the status code of the answer is in [200, 300); in every other
    case it returns an error and no body, also for status 101, which
    [transformResponse] lets pass, and a send error is returned as it is, a
    connection reset of a GET included. *)
Theorem Stream_outcome (net : Network) (r : Request.t) :
  (length (Stream net r).2 <= 1)%nat
  /\ ((Stream net r).1.2 = None <->
      exists resp,
        Request.err r = None
        /\ http_NewRequest_error (Request.verb r) (URL_String (URL r)) = None
        /\ net (default http_DefaultClient (Request.client r)) 0%nat
               (build_request r (URL_String (URL r)) None) = inr resp
        /\ 200 <= Response.StatusCode resp < 300
        /\ (Stream net r).1.1 = Response.Body resp)
  /\ ((Stream net r).1.2 <> None -> (Stream net r).1.1 = None)
  /\ (forall e,
        Request.err r = None ->
        http_NewRequest_error (Request.verb r) (URL_String (URL r)) = None ->
        net (default http_DefaultClient (Request.client r)) 0%nat
            (build_request r (URL_String (URL r)) None) = inl e ->
        Stream net r = ((None, Some e), [build_request r (URL_String (URL r)) None])).
Proof.
  unfold Stream.
  destruct (Request.err r) as [e|] eqn:He.
  { simpl. split; [lia|]. split; [|done]. split; [done|]. by intros (? & ? & _). }
  destruct (http_NewRequest_error _ _) as [e|] eqn:Hnew.
  { simpl. split; [lia|]. split; [|done]. split; [done|]. by intros (? & _ & ? & _). }
  destruct (net _ _ _) as [e|resp] eqn:Hans.
  { simpl. split; [lia|]. split; [|split; [done|by intros ? _ _ [= <-]]].
    split; [done|]. by intros (? & _ & _ & ? & _). }
  destruct (Z.leb_spec 200 (Response.StatusCode resp));
    destruct (Z.ltb_spec (Response.StatusCode resp) 300); simpl.
  1: { split; [lia|]. split; [|done]. split; [|done]. intros _. exists resp. done. }
  all: destruct (Error _); simpl; (split; [lia|]);
    (split; [|done]); (split; [done|]);
    intros (resp' & _ & _ & [= <-] & ? & _); lia.
Qed.

(** X8: [Stream] sends the request without a body, also when [Body] has set
    one. *)
Theorem Stream_sends_no_body (net : Network) (r : Request.t) :
  Forall (fun q => http_Request.Body q = None) (Stream net r).2.
Proof.
  unfold Stream.
  destruct (Request.err r); [constructor|].
  destruct (http_NewRequest_error _ _); [constructor|].
  destruct (net _ _ _) as [e|resp]; [by repeat constructor|].
  destruct (_ && _); [by repeat constructor|].
  destruct (Error _); by repeat constructor.
Qed.

(** ** IsConnectionReset *)

(** X9: [IsConnectionReset] holds exactly for errno ECONNRESET, bare or
    wrapped, from the outside in, in at most one url.Error, then at most one
    net.OpError, then at most one os.SyscallError; any other nesting of the
    wrappers and any other errno is no connection reset. *)
Theorem IsConnectionReset_iff (e : error) :
  IsConnectionReset e = true <->
  exists a b c : bool,
    e = (if a then url_Error else id)
          ((if b then net_OpError else id)
             ((if c then os_SyscallError else id) (syscall_Errno ECONNRESET))).
Proof.
  split.
  - intros H.
    pose (e1 := match e with url_Error x => x | _ => e end).
    pose (e2 := match e1 with net_OpError x => x | _ => e1 end).
    pose (e3 := match e2 with os_SyscallError x => x | _ => e2 end).
    assert (Ha : exists a : bool, e = (if a then url_Error else id) e1)
      by (subst e1; destruct e; first [by exists true | by exists false]).
    assert (Hb : exists b : bool, e1 = (if b then net_OpError else id) e2)
      by (subst e2; destruct e1; first [by exists true | by exists false]).
    assert (Hc : exists c : bool, e2 = (if c then os_SyscallError else id) e3)
      by (subst e3; destruct e2; first [by exists true | by exists false]).
    change (match e3 with syscall_Errno errno => errno =? ECONNRESET | _ => false end
            = true) in H.
    destruct e3 as [| | | | | | | | |errno| |] eqn:He3; try discriminate.
    apply Z.eqb_eq in H. subst errno.
    destruct Ha as [a Ha], Hb as [b Hb], Hc as [c Hc].
    exists a, b, c. by rewrite Ha, Hb, Hc.
  - intros (a & b & c & ->). by destruct a, b, c.
Qed.

(** ** Header *)

(** X10: [Header] sets, it does not add: afterwards the canonical form of the
    key holds exactly the given values, whatever it held before, or is absent
    when no value was given; every other header is as before, and so is the
    rest of the request. *)
Theorem Header_sets (r : Request.t) (key : string) (values : list string) :
  exists h,
    Header r key values = Request.with_headers r (Some h)
    /\ h !! textproto_CanonicalMIMEHeaderKey key
       = match values with [] => None | _ => Some values end
    /\ (forall k, k <> textproto_CanonicalMIMEHeaderKey key ->
          h !! k = default ∅ (Request.headers r) !! k)
    /\ Header_Get h key = hd "" values.
Proof.
  eexists. split; [reflexivity|].
  unfold Header_Add, Header_Del, Header_Get.
  assert (Hk : foldl (fun h value => Values_Add h (textproto_CanonicalMIMEHeaderKey key) value)
                 (delete (textproto_CanonicalMIMEHeaderKey key)
                    (default ∅ (Request.headers r))) values
               !! textproto_CanonicalMIMEHeaderKey key
               = match values with [] => None | _ => Some values end).
  { rewrite foldl_Values_Add_lookup. rewrite decide_True by done.
    rewrite lookup_delete_eq. by destruct values. }
  split; [exact Hk|]. split.
  - intros k Hne. rewrite foldl_Values_Add_lookup. rewrite decide_False by done.
    by rewrite lookup_delete_ne.
  - rewrite Hk. by destruct values.
Qed.

(** ** A body that cannot be read *)

(** X11: when reading the body of a response fails, the Result holds the read
    error and nothing else: its status code is 0 and its body is empty
    whatever the response was, a 200 included; an http2.StreamError gives the
    "Stream error" message, any other error the "Unexpected error" one; the
    bytes read before the error are dropped. *)
Theorem transformResponse_unreadable (r : Request.t) (resp : Response.t)
    (req : http_Request.t) (rc : ReadCloser) (e : error) :
  Response.Body resp = Some rc -> rc_end rc = Some e ->
  transformResponse r resp req
  = Result.of_err match e with
                  | http2_StreamError _ => Errorf_stream_read e
                  | _ => Errorf_unexpected_read e
                  end
  /\ Raw (transformResponse r resp req)
     = ([], Some match e with
                 | http2_StreamError _ => Errorf_stream_read e
                 | _ => Errorf_unexpected_read e
                 end)
  /\ HttpStatusCode (transformResponse r resp req) = 0.
Proof.
  intros Hb He. unfold transformResponse, Raw, HttpStatusCode. rewrite Hb.
  destruct rc as [d e0]. simpl in *. subst e0. by destruct e.
Qed.


(** ** Suffix *)

Lemma request_loop_with_subpath {St : Type} (net : Network) (r : Request.t)
    (p : string) (client : http_Client)
    (fn : http_Request.t -> Response.t -> St -> St) (fuel : nat) :
  forall (retries : Z) (w : World St),
  request_loop fuel net (Request.with_subpath r p) client fn retries w
  = request_loop fuel net r client fn retries w.
Proof.
  induction fuel as [|fuel IH]; intros retries w; [done|]. simpl.
  change (iteration net (Request.with_subpath r p) client fn retries w)
    with (iteration net r client fn retries w).
  destruct (iteration net r client fn retries w); [done | apply IH].
Qed.

(** X12: [Suffix] stores its segments in a field that [URL] never reads: the
    composed URL, and with it every request and every result of [Do] and
    [Stream], are the same with and without the call. *)
Theorem Suffix_changes_no_request (net : Network) (r : Request.t)
    (segments : list string) :
  URL (Suffix r segments) = URL r
  /\ Do net (Suffix r segments) = Do net r
  /\ Stream net (Suffix r segments) = Stream net r.
Proof.
  unfold Suffix. destruct (Request.err r) as [e|] eqn:He; [done|].
  split; [done|]. split; [|done].
  set (p := path_Join [Request.subpath r; path_Join segments]).
  unfold Do, request.
  change (Request.err (Request.with_subpath r p)) with (Request.err r).
  change (Request.client (Request.with_subpath r p)) with (Request.client r).
  change (classify (Request.with_subpath r p)) with (classify r).
  change (start (Request.with_subpath r p) Result.zero) with (start r Result.zero).
  by rewrite request_loop_with_subpath.
Qed.

(** ** RequestURI *)

Lemma map_fold_insert_lookup (p q : Values) (k : string) :
  map_fold (fun k v (m : Values) => <[k := v]> m) p q !! k
  = match q !! k with
    | Some v => Some v
    | None => p !! k
    end.
Proof.
  revert k. apply (map_fold_weak_ind (fun (m q : Values) => forall k,
    m !! k = match q !! k with Some v => Some v | None => p !! k end)).
  - intros k. by rewrite lookup_empty.
  - intros i x m acc Hi IH k. destruct (decide (k = i)) as [->|Hne].
    + by rewrite !lookup_insert_eq.
    + rewrite !lookup_insert_ne by done. apply IH.
Qed.

(** X13: on a request without recorded error, [RequestURI] records the error
    of a URI that does not parse and changes nothing else; for a URI that
    parses it replaces the path by the path of the URI, and for every
    parameter name in the query of the URI it replaces the values held so far
    by those of the URI, while the names that the URI does not mention keep
    their values. *)
Theorem RequestURI_outcome (r : Request.t) (uri : string) :
  Request.err r = None ->
  (forall e, url_Parse uri = inl e ->
     RequestURI r uri = Request.with_err r (Some e))
  /\ (forall locator, url_Parse uri = inr locator ->
        Request.err (RequestURI r uri) = None
        /\ Request.pathPrefix (RequestURI r uri) = url_URL.Path locator
        /\ forall k,
             default ∅ (Request.params (RequestURI r uri)) !! k
             = match URL_Query locator !! k with
               | Some v => Some v
               | None => default ∅ (Request.params r) !! k
               end).
Proof.
  intros He. unfold RequestURI. rewrite He. split.
  - by intros e ->.
  - intros locator ->.
    destruct (Z.ltb_spec 0 (Z.of_nat (size (URL_Query locator)))) as [Hpos|Hzero]; simpl.
    + split; [done|]. split; [done|]. intros k. apply map_fold_insert_lookup.
    + split; [done|]. split; [done|]. intros k.
      assert (URL_Query locator = ∅) as -> by (apply map_size_empty_inv; lia).
      by rewrite lookup_empty.
Qed.

(** ** A connection that is reset every time *)

(** The loop on answers that all ask to wait, for a body whose [Seek]
    does not fail: the generalization of the retry bound to screened answers
    and to every such body. *)
Lemma request_loop_waits {St : Type} (net : Network) (r : Request.t)
    (client : http_Client) (fn : http_Request.t -> Response.t -> St -> St)
    (k : nat) :
  http_NewRequest_error (Request.verb r) (URL_String (URL r)) = None ->
  (forall n req, exists resp,
      screened r (net client n req) = inr resp /\ snd (checkWait resp) = true) ->
  forall (fuel : nat) (retries : Z) (w : World St),
  (forall rd e, w_body w = Some rd -> rd_seek rd <> SeekFails e) ->
  0 <= retries -> retries + Z.of_nat (S k) = maxRetries -> (S k <= fuel)%nat ->
  exists w' req resp,
    request_loop fuel net r client fn retries w = Some (None, w')
    /\ length (w_sent w') = (length (w_sent w) + S k)%nat
    /\ screened r (net client (length (w_sent w) + k)%nat req) = inr resp
    /\ last (w_sent w') = Some req
    /\ w_cb w' = fn req resp (w_cb w).
Proof.
  intros Hnew Hnet. induction k as [|k IH];
    intros fuel retries w Hbody Hret Hcap Hfuel;
    (destruct fuel as [|fuel]; [lia|]);
    destruct (Hnet (length (w_sent w)) (next_request r w)) as (resp & Hans & Hwait);
    simpl; rewrite (iteration_wait r client fn net retries w resp Hnew Hans Hwait);
    unfold maxRetries in *.
  - assert ((retries + 1 <? 10) = false) as -> by lia.
    eexists _, (next_request r w), resp. split; [reflexivity|]. simpl.
    rewrite length_app, Nat.add_0_r, last_snoc. simpl. done.
  - assert ((retries + 1 <? 10) = true) as -> by lia.
    assert (Hnext : exists w1,
              match w_body w with
              | Some rd =>
                  match rd_seek rd with
                  | SeekSucceeds =>
                      step_again (retries + 1)
                        {| w_sent := w_sent w ++ [next_request r w];
                           w_body := Some (reader_rewind rd);
                           w_cb := w_cb w |}
                  | SeekFails _ =>
                      step_return None
                        (deliver fn (next_request r w) resp
                           (after_send (next_request r w) w))
                  | NotSeeker =>
                      step_again (retries + 1) (after_send (next_request r w) w)
                  end
              | None => step_again (retries + 1) (after_send (next_request r w) w)
              end = step_again (retries + 1) w1
              /\ w_sent w1 = w_sent w ++ [next_request r w]
              /\ w_cb w1 = w_cb w
              /\ forall rd e, w_body w1 = Some rd -> rd_seek rd <> SeekFails e).
    { destruct (w_body w) as [rd|] eqn:Hb.
      - destruct (rd_seek rd) as [| |e] eqn:Hseek.
        + eexists. split; [reflexivity|]. split; [done|]. split; [done|].
          intros rd' e Hx. simpl in Hx. rewrite Hb in Hx. simpl in Hx.
          injection Hx as <-. simpl. by rewrite Hseek.
        + eexists. split; [reflexivity|]. simpl. split; [done|]. split; [done|].
          intros rd' e Hx. injection Hx as <-. simpl. by rewrite Hseek.
        + by destruct (Hbody rd e).
      - eexists. split; [reflexivity|]. split; [done|]. split; [done|].
        intros rd' e Hx. simpl in Hx. rewrite Hb in Hx. done. }
    destruct Hnext as (w1 & -> & Hs & Hcb & Hbody1).
    destruct (IH fuel (retries + 1) w1 Hbody1)
      as (w' & req & resp' & -> & Hlen & Hresp & Hlast & Hcb'); try lia.
    rewrite Hs, length_app in *. simpl in *.
    exists w', req, resp'. split; [done|].
    replace (length (w_sent w) + S k)%nat with (length (w_sent w) + 1 + k)%nat by lia.
    split; [lia|]. by rewrite <- Hcb.
Qed.

(** X14: a GET whose every send fails with a connection reset is sent 10
    times; [Do] then returns no transport error but the classification of the
    placeholder answer: status code 500 and the message of a server error. *)
Theorem Do_connection_always_reset (net : Network) (r : Request.t) :
  Request.err r = None ->
  http_NewRequest_error (Request.verb r) (URL_String (URL r)) = None ->
  Request.verb r = "GET" ->
  (forall rd e, Request.body r = Some rd -> rd_seek rd <> SeekFails e) ->
  (forall n req, exists e,
      net (default http_DefaultClient (Request.client r)) n req = inl e
      /\ IsConnectionReset e = true) ->
  exists res w,
    Do net r = Some (res, w)
    /\ length (w_sent w) = 10%nat
    /\ Result.statusCode res = 500
    /\ Result.err res
       = Some (StatusError
           "an error on the server (500) has prevented the request from succeeding").
Proof.
  intros He Hnew Hverb Hbody Hnet.
  destruct (request_loop_waits net r (default http_DefaultClient (Request.client r))
              (classify r) 9 Hnew)
    with (fuel := 10%nat) (retries := 0) (w := start r Result.zero)
    as (w & req & resp & Hloop & Hlen & Hresp & Hlast & Hcb);
    try done; try (unfold maxRetries; lia).
  - intros n req. destruct (Hnet n req) as (e & -> & Hreset).
    exists reset_placeholder. unfold screened. rewrite Hreset, Hverb. simpl.
    split; [done|]. by rewrite checkWait_reset_placeholder.
  - destruct (Hnet (length (w_sent (start r Result.zero)) + 9)%nat req)
      as (e & Hans & Hreset).
    rewrite Hans in Hresp. unfold screened in Hresp.
    rewrite Hreset, Hverb in Hresp. simpl in Hresp. injection Hresp as <-.
    exists (transformResponse r reset_placeholder req), w.
    unfold Do, request. rewrite He.
    change (Z.to_nat maxRetries) with 10%nat. rewrite Hloop, Hcb.
    split; [done|]. split; [done|].
    destruct (transformResponse_read r reset_placeholder req [])
      as (_ & -> & _ & _ & ->); [done|].
    split; reflexivity.
Qed.

(** ** The decoder *)

(** X15: [Into] picks the unmarshaller by the parsed media type, JSON for
    application/json, YAML for application/yaml, XML for application/xml and
    text/xml, and returns its error, or nil, as it is; the target is what the
    unmarshaller left. *)
Theorem Into_dispatch (r : Result.t) (obj : Target) (mt : string) :
  Result.err r = None -> Result.body r <> [] ->
  mime_ParseMediaType (Result.contentType r) = inr mt ->
  Result.decoder r = Some NewDecode ->
  (mt = "application/json" ->
   Into r obj = into_return (json_Unmarshal (Result.body r) obj).2
                            (json_Unmarshal (Result.body r) obj).1)
  /\ (mt = "application/yaml" ->
      Into r obj = into_return (yaml_Unmarshal (Result.body r) obj).2
                               (yaml_Unmarshal (Result.body r) obj).1)
  /\ (mt = "application/xml" \/ mt = "text/xml" ->
      Into r obj = into_return (xml_Unmarshal (Result.body r) obj).2
                               (xml_Unmarshal (Result.body r) obj).1).
Proof.
  intros He Hb Hm Hd. rewrite (Into_decodes r obj mt NewDecode He Hb Hm Hd).
  simpl. unfold decode_Decode.
  split; [|split].
  - intros ->. simpl. by destruct (json_Unmarshal _ _) as [t [e|]].
  - intros ->. simpl. by destruct (yaml_Unmarshal _ _) as [t [e|]].
  - intros [-> | ->]; simpl; by destruct (xml_Unmarshal _ _) as [t [e|]].
Qed.


(** ** Answers that are never retried *)

(** X4: an answer whose status code is below 500 and is not 429, or that has
    no Retry-After header, or whose Retry-After is not an integer, is final:
    [Do] sends one request and returns the classification of that answer. *)
Theorem Do_no_retry (net : Network) (r : Request.t) (resp : Response.t) :
  Request.err r = None ->
  http_NewRequest_error (Request.verb r) (URL_String (URL r)) = None ->
  net (default http_DefaultClient (Request.client r)) 0%nat
      (next_request r (start r Result.zero)) = inr resp ->
  (Response.StatusCode resp < 500 /\ Response.StatusCode resp <> 429)
  \/ Header_Get (Response.Header resp) "Retry-After" = ""
  \/ strconv_Atoi (Header_Get (Response.Header resp) "Retry-After") = None ->
  exists w,
    Do net r
    = Some (transformResponse r resp (next_request r (start r Result.zero)), w)
    /\ w_sent w = [next_request r (start r Result.zero)].
Proof.
  intros He Hnew Hans Hfinal.
  apply Do_terminal_first_answer; try done.
  unfold checkWait, retryAfterSeconds.
  destruct Hfinal as [[Hlt Hne]|[Hra|Hra]].
  - assert ((Response.StatusCode resp =? 429) = false) as -> by lia.
    assert ((500 <=? Response.StatusCode resp) = false) as -> by lia.
    done.
  - rewrite Hra. simpl. by destruct (_ || _).
  - rewrite Hra. destruct (_ || _); [|done]. by destruct (_ <? _).
Qed.

(** ** The message of a status error *)

(** X16: the text sent by the server reaches the message of the error for the
    status codes 403, 406 and 415 only: for every other code the message does
    not depend on it. *)
Theorem NewGenericServerResponse_ignores_body (code : Z) (m1 m2 : string) :
  code <> 403 -> code <> 406 -> code <> 415 ->
  NewGenericServerResponse code m1 = NewGenericServerResponse code m2.
Proof.
  intros H403 H406 H415. unfold NewGenericServerResponse. f_equal.
  destruct code as [|p|p]; [reflexivity| |reflexivity].
  repeat (destruct p as [p|p|]; try reflexivity; try lia).
Qed.

(** X17: a status code of 500 or more other than 503 and 504 gives the message
    "an error on the server (<code>) has prevented the request from
    succeeding"; a status code below 500 outside 400, 401, 403, 404, 405, 406,
    409, 415, 422 and 429 gives "the server responded with the status code
    <code> but did not return more information". *)
Theorem NewGenericServerResponse_default (code : Z) (msg : string) :
  (500 <= code -> code <> 503 -> code <> 504 ->
   NewGenericServerResponse code msg
   = StatusError ("an error on the server (" +:+ itoa code +:+
                  ") has prevented the request from succeeding"))
  /\ (code < 500 ->
      code ∉ [400; 401; 403; 404; 405; 406; 409; 415; 422; 429] ->
      NewGenericServerResponse code msg
      = StatusError ("the server responded with the status code " +:+ itoa code +:+
                     " but did not return more information")).
Proof.
  split.
  - intros Hge H503 H504. unfold NewGenericServerResponse. f_equal.
    assert ((500 <=? code) = true) as -> by lia.
    generalize ("an error on the server (" +:+ itoa code +:+
                ") has prevented the request from succeeding").
    intros x. destruct code as [|p|p]; try lia.
    repeat (destruct p as [p|p|]; try reflexivity; try lia).
  - intros Hlt Hnot. unfold NewGenericServerResponse. f_equal.
    assert ((500 <=? code) = false) as -> by lia.
    generalize ("the server responded with the status code " +:+ itoa code +:+
                " but did not return more information").
    intros x.
    assert (code <> 400 /\ code <> 401 /\ code <> 403 /\ code <> 404 /\ code <> 405
            /\ code <> 406 /\ code <> 409 /\ code <> 415 /\ code <> 422 /\ code <> 429)
      as (? & ? & ? & ? & ? & ? & ? & ? & ? & ?).
    { repeat split; intros ->; apply Hnot; set_solver. }
    destruct code as [|p|p]; [reflexivity| |reflexivity].
    repeat (destruct p as [p|p|]; try reflexivity; try lia).
Qed.

End Coverage.

(** * Closed examples on the reference runtime *)

Import Reference.

(** A response with a body that reads to its end. *)
Definition response (code : Z) (header : Values) (body : string) : Response.t :=
  {| Response.StatusCode := code;
     Response.Header := header;
     Response.Body := Some {| rc_data := bytes_of_string body; rc_end := None |};
     Response.ContentLength := Z.of_nat (String.length body) |}.

Definition post_request : Request.t :=
  Body (NewRequest "https://example.com/api" "post") (body_bytes (bytes_of_string "x")).

Definition get_request : Request.t := NewRequest "example.com" "get".

(** A network that is busy for ever. *)
Definition busy : Network :=
  fun _ _ _ => inr (response 503 {[ "Retry-After" := ["0"] ]} "busy").

(** A network that is busy once and then answers 200. *)
Definition busy_once : Network :=
  fun _ n _ =>
    if (n <? 1)%nat then inr (response 503 {[ "Retry-After" := ["0"] ]} "busy")
    else inr (response 200 {[ "Content-Type" := ["text/plain"] ]} "ok").

(** A network on which every connection is reset. *)
Definition resetting : Network :=
  fun _ _ _ => inl (url_Error (net_OpError (os_SyscallError (syscall_Errno 104)))).

(** A stream that is no [io.Seeker], and one whose [Seek] fails. *)
Definition pipe_reader : Reader :=
  {| rd_data := bytes_of_string "x"; rd_pos := 0; rd_seek := NotSeeker |}.
Definition stuck_reader : Reader :=
  {| rd_data := bytes_of_string "x"; rd_pos := 0;
     rd_seek := SeekFails (lib_error "seek: illegal seek") |}.

(** A request with a recorded configuration error. *)
Definition broken_request : Request.t := Body get_request body_other.

(** What the examples read off an execution of [Do]: the status code and the
    error of the Result, and the body of every request sent. *)
Definition outcome `{GoStd} (o : option (Result.t * World Result.t))
    : option (Z * option error * list (option bytes)) :=
  match o with
  | Some (res, w) =>
      Some (Result.statusCode res, Result.err res, http_Request.Body <$> w_sent w)
  | None => None
  end.

(** What the examples read off a call of [Into]: the error and the target,
    or nothing after a panic. *)
Definition returned (x : IntoReturn) : option (option error * bytes) :=
  match x with
  | into_return e obj => Some (e, obj)
  | into_panic => None
  end.

Example NewRequest_upper_cases_verb :
  Request.verb post_request = "POST" /\ Request.verb get_request = "GET".
Proof. vm_compute. repeat split; reflexivity. Qed.

Example URL_example :
  URL_String (URL (Timeout (Param (Param (Param
    (NewRequest "https://example.com/api" "get") "a" "1") "a" "2") "timeout" "99")
    (2 * time_Second)))
  = "https://example.com/api?a=1&a=2&timeout=2s".
Proof. vm_compute. repeat split; reflexivity. Qed.

(** C1, counterexample: status 207 lies in [200, 300) and the Result carries
    an error. *)
Lemma transformResponse_207_has_error :
  200 <= Result.statusCode
           (transformResponse get_request (response 207 ∅ "ok")
              (build_request get_request "http://example.com/" None)) < 300
  /\ Result.err
       (transformResponse get_request (response 207 ∅ "ok")
          (build_request get_request "http://example.com/" None))
     = Some (StatusError
         "the server responded with the status code 207 but did not return more information").
Proof. vm_compute. split; [split; [discriminate | reflexivity] | reflexivity]. Qed.

(** C2, witness: a POST with a byte body against [busy]. *)
Lemma Do_retry_bound_busy :
  exists w req resp,
    Do busy post_request = Some (transformResponse post_request resp req, w)
    /\ length (w_sent w) = 10%nat
    /\ w_sent w !! 9%nat = Some req
    /\ busy (default http_DefaultClient (Request.client post_request)) 9%nat req
       = inr resp.
Proof.
  apply (Do_retry_bound busy post_request (bytes_NewReader (bytes_of_string "x"))).
  - vm_compute; reflexivity.
  - vm_compute; reflexivity.
  - vm_compute; reflexivity.
  - vm_compute; reflexivity.
  - intros n req. eexists. split; [reflexivity|]. vm_compute. auto.
Defined.

Example Do_busy_result :
  outcome (Do busy post_request)
  = Some (503,
          Some (StatusError "the server is currently unable to handle the request"),
          replicate 10 (Some (bytes_of_string "x"))).
Proof. vm_compute. reflexivity. Qed.

(** C3, the code at the failing input: the body of a POST is a stream that
    cannot seek and the first answer asks to wait.  The claim, like the branch
    of the code for a [Seek] that fails, has the loop stop and deliver this
    answer; the code instead sends a second request, with what is left of the
    body, nothing, and returns the answer to that one. *)
Lemma Do_retries_unseekable_stream :
  snd (checkWait (response 503 {[ "Retry-After" := ["0"] ]} "busy")) = true
  /\ outcome (Do busy_once (Body (NewRequest "https://example.com/api" "post")
                                 (body_Reader pipe_reader)))
     = Some (200, None, [Some (bytes_of_string "x"); Some []]).
Proof. split; vm_compute; reflexivity. Qed.

(** X18, witness: a body whose [Seek] fails; the first answer of
    [busy_once] asks to wait and is delivered. *)
Lemma unseekable_body_retry_stuck :
  request_loop 10 busy_once (Body get_request (body_Reader stuck_reader))
    http_DefaultClient (classify (Body get_request (body_Reader stuck_reader)))
    0 (start (Body get_request (body_Reader stuck_reader)) Result.zero)
  = Some (None,
          deliver (classify (Body get_request (body_Reader stuck_reader)))
            (next_request (Body get_request (body_Reader stuck_reader))
               (start (Body get_request (body_Reader stuck_reader)) Result.zero))
            (response 503 {[ "Retry-After" := ["0"] ]} "busy")
            (after_send
               (next_request (Body get_request (body_Reader stuck_reader))
                  (start (Body get_request (body_Reader stuck_reader)) Result.zero))
               (start (Body get_request (body_Reader stuck_reader)) Result.zero))).
Proof.
  refine (proj1 (unseekable_body_retry busy_once
            (Body get_request (body_Reader stuck_reader)) http_DefaultClient
            (classify (Body get_request (body_Reader stuck_reader)))
            9 0 (start (Body get_request (body_Reader stuck_reader)) Result.zero)
            (response 503 {[ "Retry-After" := ["0"] ]} "busy") _ _ _)
          stuck_reader (lib_error "seek: illegal seek") _ _);
    vm_compute; reflexivity.
Defined.

Example Do_stuck_reader :
  outcome (Do busy_once (Body get_request (body_Reader stuck_reader)))
  = Some (503,
          Some (StatusError "the server is currently unable to handle the request"),
          [Some (bytes_of_string "x")]).
Proof. vm_compute. reflexivity. Qed.

(** C4, witness: a GET on a network that resets every connection runs as on
    the network that answers the first request with the placeholder; a POST
    gets the error back after one request. *)
Lemma send_error_handling_resetting :
  request_loop 10 resetting get_request http_DefaultClient (classify get_request)
    0 (start get_request Result.zero)
  = request_loop 10 (answering resetting 0 reset_placeholder) get_request
      http_DefaultClient (classify get_request) 0 (start get_request Result.zero).
Proof.
  refine (proj1 (proj1 (send_error_handling resetting get_request http_DefaultClient
            (classify get_request) 10 0 (start get_request Result.zero)
            (url_Error (net_OpError (os_SyscallError (syscall_Errno 104)))) _ _)
          (conj _ _)));
    vm_compute; reflexivity.
Defined.

Example Do_resetting_get :
  outcome (Do resetting get_request)
  = Some (0,
          None,
          replicate 10 None)
  \/ outcome (Do resetting get_request)
     = Some (500,
             Some (StatusError
               "an error on the server (500) has prevented the request from succeeding"),
             replicate 10 None).
Proof. right. vm_compute. reflexivity. Qed.

Example Do_resetting_post :
  outcome (Do resetting post_request)
  = Some (0,
          Some (url_Error (net_OpError (os_SyscallError (syscall_Errno 104)))),
          [Some (bytes_of_string "x")]).
Proof. vm_compute. reflexivity. Qed.

(** C5, counterexample: on a request with a recorded error, Header,
    HttpClient and Context still change the configuration. *)
Lemma Header_after_error_sets_header :
  Request.err broken_request = Some Errorf_unknown_body
  /\ Request.headers broken_request = None
  /\ Request.headers (Header broken_request "X-Trace" ["1"])
     = Some {[ "X-Trace" := ["1"] ]}
  /\ Request.ctx broken_request = None
  /\ Request.ctx (Context broken_request (Some 7%nat)) = Some 7%nat
  /\ Request.client (HttpClient broken_request None) = None
  /\ Request.client broken_request
     = Request.client get_request.
Proof. vm_compute. repeat split; reflexivity. Qed.

(** C5, witness: the request whose body had an unknown type. *)
Lemma configuration_after_error_broken :
  Param broken_request "a" "1" = broken_request
  /\ Do busy broken_request
     = Some (Result.of_err Errorf_unknown_body, start broken_request Result.zero)
  /\ Stream busy broken_request = ((None, Some Errorf_unknown_body), []).
Proof.
  destruct (configuration_after_error broken_request Errorf_unknown_body eq_refl)
    as ((_ & _ & _ & _ & _ & Hparam & _) & _ & _ & Hdo & Hstream).
  split; [apply Hparam | split; [apply Hdo | apply Hstream]].
Defined.

(** C6, counterexample: for status 429 the message is neither the body text
    of a texty response nor "unknown" for another one. *)
Lemma too_many_requests_message :
  strings_TrimSpace (string_of_bytes (take 2048 (bytes_of_string "slow down")))
  = "slow down"
  /\ newUnstructuredResponseError get_request (bytes_of_string "slow down") true
       429 "GET" 0
     = StatusError
         "the server has received too many requests and has asked us to try again later"
  /\ newUnstructuredResponseError get_request (bytes_of_string "slow down") false
       429 "GET" 0
     = StatusError
         "the server has received too many requests and has asked us to try again later"
  /\ isTextResponse (response 429 {[ "Content-Type" := ["text/plain"] ]} "slow down")
     = true
  /\ Result.err
       (transformResponse get_request
          (response 429 {[ "Content-Type" := ["text/plain"] ]} "slow down")
          (build_request get_request "http://example.com/" None))
     = Some (StatusError
         "the server has received too many requests and has asked us to try again later").
Proof. vm_compute. repeat split; reflexivity. Qed.

Example forbidden_message :
  Result.err
    (transformResponse get_request
       (response 403 {[ "Content-Type" := ["text/plain"] ]} " no entry ")
       (build_request get_request "http://example.com/" None))
  = Some (StatusError "no entry").
Proof. vm_compute. reflexivity. Qed.

(** C7, counterexample: a response with status 207 and an empty body; [Raw]
    returns the empty bytes with an error, and [Into] fails with that error,
    not with the "0-length response" error. *)
Lemma Raw_207_empty_body_has_error :
  Raw (transformResponse get_request (response 207 ∅ "")
         (build_request get_request "http://example.com/" None))
  = ([], Some (StatusError
       "the server responded with the status code 207 but did not return more information"))
  /\ returned
       (Into (transformResponse get_request (response 207 ∅ "")
                (build_request get_request "http://example.com/" None)) [])
     = Some (Some (StatusError
         "the server responded with the status code 207 but did not return more information"),
         []).
Proof. vm_compute. split; reflexivity. Qed.

(** C8, counterexample: a body that is not empty, first with no Content-Type
    at all, then with Content-Type text/plain on a 404; [Into] returns an
    error in both cases. *)
Lemma Into_reports_error_for_unsupported_type :
  returned
    (Into (transformResponse get_request (response 200 ∅ "hello")
             (build_request get_request "http://example.com/" None))
          (bytes_of_string "before"))
  = Some (Some (lib_error "mime: no media type"), bytes_of_string "before")
  /\ mime_ParseMediaType "text/plain" = inr "text/plain"
  /\ returned
       (Into (transformResponse get_request
                (response 404 {[ "Content-Type" := ["text/plain"] ]} "gone")
                (build_request get_request "http://example.com/" None))
             (bytes_of_string "before"))
     = Some (Some (StatusError "the server could not find the requested resource"),
             bytes_of_string "before").
Proof. vm_compute. repeat split; reflexivity. Qed.

(** C8, witness: a 200 response of type text/plain. *)
Lemma Into_unsupported_media_type_text :
  Into (transformResponse get_request
          (response 200 {[ "Content-Type" := ["text/plain; charset=utf-8"] ]} "hello")
          (build_request get_request "http://example.com/" None))
       (bytes_of_string "before")
  = into_return None (bytes_of_string "before").
Proof.
  refine (proj1 (Into_unsupported_media_type
            (transformResponse get_request
               (response 200 {[ "Content-Type" := ["text/plain; charset=utf-8"] ]} "hello")
               (build_request get_request "http://example.com/" None))
            (bytes_of_string "before") _ _ _) "text/plain" _ _).
  - vm_compute; reflexivity.
  - vm_compute; discriminate.
  - reflexivity.
  - vm_compute; reflexivity.
  - unfold supported_media_types. intros H.
    repeat (apply elem_of_cons in H as [H|H]; [discriminate|]).
    by apply elem_of_nil in H.
Defined.

Example Into_json :
  returned
    (Into (transformResponse get_request
             (response 200 {[ "Content-Type" := ["application/json"] ]} "[1]")
             (build_request get_request "http://example.com/" None))
          (bytes_of_string "before"))
  = Some (None, bytes_of_string "[1]").
Proof. vm_compute. reflexivity. Qed.

(** * Closed examples for the further properties *)

(** A network that answers 404 with a Retry-After header. *)
Definition not_found : Network :=
  fun _ _ _ => inr (response 404 {[ "Retry-After" := ["1"] ]} "nope").

(** A 200 response whose body breaks off with an HTTP/2 stream error. *)
Definition cut_off : Response.t :=
  {| Response.StatusCode := 200;
     Response.Header := ∅;
     Response.Body :=
       Some {| rc_data := bytes_of_string "par"; rc_end := Some (http2_StreamError 1) |};
     Response.ContentLength := 7 |}.

(** A reader that can seek and of which two bytes were read already. *)
Definition half_read : Reader :=
  {| rd_data := bytes_of_string "hello"; rd_pos := 2; rd_seek := SeekSucceeds |}.

(** Witness of [Do_no_retry]: a 404 is final although it has Retry-After. *)
Lemma Do_no_retry_not_found :
  exists w,
    Do not_found get_request
    = Some (transformResponse get_request
              (response 404 {[ "Retry-After" := ["1"] ]} "nope")
              (next_request get_request (start get_request Result.zero)), w)
    /\ w_sent w = [next_request get_request (start get_request Result.zero)].
Proof.
  apply (Do_no_retry not_found get_request
           (response 404 {[ "Retry-After" := ["1"] ]} "nope")).
  - vm_compute; reflexivity.
  - vm_compute; reflexivity.
  - vm_compute; reflexivity.
  - left. vm_compute. split; [reflexivity | discriminate].
Defined.

(** Witness of [Do_replays_bytes]: every request to [busy] carries "x". *)
Lemma Do_replays_bytes_busy :
  exists res w,
    Do busy (Body (NewRequest "https://example.com/api" "post")
                  (body_bytes (bytes_of_string "x")))
    = Some (res, w)
    /\ Forall (fun q => http_Request.Body q = Some (bytes_of_string "x")) (w_sent w).
Proof.
  apply (Do_replays_bytes busy (NewRequest "https://example.com/api" "post")
           (bytes_of_string "x")).
  vm_compute; reflexivity.
Defined.

(** Witness of [second_attempt_body]: "llo" first, then "hello". *)
Lemma second_attempt_body_half_read :
  exists res w,
    Do busy_once (Body get_request (body_Reader half_read)) = Some (res, w)
    /\ http_Request.Body <$> w_sent w
       = [Some (drop (rd_pos half_read) (rd_data half_read));
          Some (rd_data half_read)].
Proof.
  refine (proj1 (second_attempt_body busy_once
            (Body get_request (body_Reader half_read)) half_read
            (response 503 {[ "Retry-After" := ["0"] ]} "busy")
            (response 200 {[ "Content-Type" := ["text/plain"] ]} "ok")
            _ _ _ _ _ _ _) _).
  - vm_compute; reflexivity.
  - vm_compute; reflexivity.
  - vm_compute; reflexivity.
  - intros req. reflexivity.
  - intros req. reflexivity.
  - vm_compute; reflexivity.
  - vm_compute; reflexivity.
  - reflexivity.
Defined.

Example second_attempt_bodies :
  outcome (Do busy_once (Body get_request (body_Reader half_read)))
  = Some (200, None, [Some (bytes_of_string "llo"); Some (bytes_of_string "hello")]).
Proof. vm_compute. reflexivity. Qed.

(** Witness of [transformResponse_unreadable]: a 200 that breaks off. *)
Lemma transformResponse_unreadable_cut_off :
  HttpStatusCode (transformResponse get_request cut_off
                    (build_request get_request "http://example.com/" None)) = 0
  /\ Raw (transformResponse get_request cut_off
            (build_request get_request "http://example.com/" None))
     = ([], Some (Errorf_stream_read (http2_StreamError 1))).
Proof.
  destruct (transformResponse_unreadable get_request cut_off
              (build_request get_request "http://example.com/" None)
              {| rc_data := bytes_of_string "par"; rc_end := Some (http2_StreamError 1) |}
              (http2_StreamError 1) eq_refl eq_refl) as (_ & Hraw & Hcode).
  split; [exact Hcode | exact Hraw].
Defined.

(** Witness of [RequestURI_outcome]: the path of the URI becomes the path. *)
Lemma RequestURI_outcome_items :
  Request.pathPrefix (RequestURI get_request "/v1/items?a=1") = "/v1/items"
  /\ default ∅ (Request.params (RequestURI get_request "/v1/items?a=1")) !! "a"
     = Some ["1"].
Proof.
  destruct (RequestURI_outcome get_request "/v1/items?a=1" eq_refl) as [_ H].
  destruct (H (url_URL.mk "" "" "/v1/items" "a=1" "") eq_refl) as (_ & Hp & Hq).
  split; [exact Hp|]. rewrite Hq. vm_compute. reflexivity.
Defined.

(** Witness of [Do_connection_always_reset]: a GET on [resetting]. *)
Lemma Do_connection_always_reset_get :
  exists res w,
    Do resetting get_request = Some (res, w)
    /\ length (w_sent w) = 10%nat
    /\ Result.statusCode res = 500
    /\ Result.err res
       = Some (StatusError
           "an error on the server (500) has prevented the request from succeeding").
Proof.
  apply (Do_connection_always_reset resetting get_request).
  - vm_compute; reflexivity.
  - vm_compute; reflexivity.
  - vm_compute; reflexivity.
  - intros rd e H. vm_compute in H. discriminate.
  - intros n req. eexists. split; reflexivity.
Defined.

(** Witness of [Into_dispatch]: a JSON document. *)
Lemma Into_dispatch_json :
  Into (transformResponse get_request
          (response 200 {[ "Content-Type" := ["application/json"] ]} "[1]")
          (build_request get_request "http://example.com/" None))
       (bytes_of_string "before")
  = into_return
      (json_Unmarshal (bytes_of_string "[1]") (bytes_of_string "before")).2
      (json_Unmarshal (bytes_of_string "[1]") (bytes_of_string "before")).1.
Proof.
  refine (proj1 (Into_dispatch
            (transformResponse get_request
               (response 200 {[ "Content-Type" := ["application/json"] ]} "[1]")
               (build_request get_request "http://example.com/" None))
            (bytes_of_string "before") "application/json" _ _ _ _) eq_refl).
  - vm_compute; reflexivity.
  - vm_compute; discriminate.
  - vm_compute; reflexivity.
  - reflexivity.
Defined.

(** Witness of [NewGenericServerResponse_ignores_body]: status 404. *)
Lemma NewGenericServerResponse_ignores_body_404 :
  NewGenericServerResponse 404 "first" = NewGenericServerResponse 404 "second".
Proof.
  apply (NewGenericServerResponse_ignores_body 404 "first" "second"); discriminate.
Defined.

Example Stream_207 :
  Stream (fun _ _ _ => inr (response 207 ∅ "ok")) post_request
  = ((Some {| rc_data := bytes_of_string "ok"; rc_end := None |}, None),
     [build_request post_request "https://example.com/api" None]).
Proof. vm_compute. reflexivity. Qed.

Example Stream_101 :
  (Stream (fun _ _ _ => inr (response 101 ∅ "")) get_request).1
  = (None, Some (Errorf_while_accessing 101 "http://example.com/" [])).
Proof. vm_compute. reflexivity. Qed.
